(** * Personal finance tracker: aggregation, bill status, export and store model

    A shallow embedding of the page-level logic of the finance tracker
    (Dashboard, Bills, Transactions, InvestmentGoals, VisualAnalysis,
    ExportData and the Supabase migration), followed by the properties
    established for it. *)

From Stdlib Require Import ZArith QArith List String Ascii Bool Lia.
From Stdlib Require Import DecimalString DecimalZ.
From Stdlib Require Import Setoid Morphisms.
From Stdlib Require Import Permutation Sorted.
Import ListNotations.

Local Open Scope Z_scope.

(* ------------------------------------------------------------------ *)
(** ** JavaScript numbers *)
(* ------------------------------------------------------------------ *)

(** A JS number is modelled as an exact rational or one of the three IEEE
    special values.  Finite arithmetic is exact (no rounding, no overflow,
    no signed zero); the special values follow IEEE 754, which is what
    decides the result of the divisions performed by the pages. *)
Module JsNumber.

Inductive number : Type :=
| Fin (q : Q)
| PosInfinity
| NegInfinity
| NaN.

Definition zero : number := Fin 0.
Definition hundred : number := Fin 100.

Definition Qis_zero (q : Q) : bool := Qeq_bool q 0.
Definition Qis_neg (q : Q) : bool := negb (Qle_bool 0 q).

(** [a + b] *)
Definition add (a b : number) : number :=
  match a, b with
  | NaN, _ | _, NaN => NaN
  | Fin p, Fin q => Fin (p + q)
  | PosInfinity, NegInfinity | NegInfinity, PosInfinity => NaN
  | PosInfinity, _ | _, PosInfinity => PosInfinity
  | NegInfinity, _ | _, NegInfinity => NegInfinity
  end.

Definition neg (a : number) : number :=
  match a with
  | Fin p => Fin (- p)
  | PosInfinity => NegInfinity
  | NegInfinity => PosInfinity
  | NaN => NaN
  end.

(** [a - b] *)
Definition sub (a b : number) : number := add a (neg b).

Definition flip (positive : bool) : number :=
  if positive then PosInfinity else NegInfinity.

(** [a * b] *)
Definition mul (a b : number) : number :=
  match a, b with
  | NaN, _ | _, NaN => NaN
  | Fin p, Fin q => Fin (p * q)
  | Fin p, PosInfinity | PosInfinity, Fin p =>
      if Qis_zero p then NaN else flip (negb (Qis_neg p))
  | Fin p, NegInfinity | NegInfinity, Fin p =>
      if Qis_zero p then NaN else flip (Qis_neg p)
  | PosInfinity, PosInfinity | NegInfinity, NegInfinity => PosInfinity
  | PosInfinity, NegInfinity | NegInfinity, PosInfinity => NegInfinity
  end.

(** [a / b]: a zero divisor gives [NaN] for [0 / 0] and an infinity of
    the sign of the dividend otherwise. *)
Definition div (a b : number) : number :=
  match a, b with
  | NaN, _ | _, NaN => NaN
  | Fin p, Fin q =>
      if Qis_zero q
      then (if Qis_zero p then NaN else flip (negb (Qis_neg p)))
      else Fin (p / q)
  | Fin _, (PosInfinity | NegInfinity) => Fin 0
  | (PosInfinity | NegInfinity), (PosInfinity | NegInfinity) => NaN
  | PosInfinity, Fin q => flip (negb (Qis_neg q))
  | NegInfinity, Fin q => flip (Qis_neg q)
  end.

(** [a < b] and [a > b]; every comparison with [NaN] is false. *)
Definition ltb (a b : number) : bool :=
  match a, b with
  | NaN, _ | _, NaN => false
  | Fin p, Fin q => negb (Qle_bool q p)
  | NegInfinity, (Fin _ | PosInfinity) => true
  | Fin _, PosInfinity => true
  | _, _ => false
  end.

Definition gtb (a b : number) : bool := ltb b a.

(** [Math.min(a, b)]: [NaN] if either argument is [NaN]. *)
Definition Math_min (a b : number) : number :=
  match a, b with
  | NaN, _ | _, NaN => NaN
  | _, _ => if ltb b a then b else a
  end.

(** Truthiness of a number: [0] and [NaN] are falsy. *)
Definition truthy (a : number) : bool :=
  match a with
  | Fin p => negb (Qis_zero p)
  | NaN => false
  | _ => true
  end.

(** [a || b] on numbers. *)
Definition or_else (a b : number) : number := if truthy a then a else b.

(** [Number(x)] applied to a value that already is a number. *)
Definition Number (x : number) : number := x.

(** Numeric equality of the model: equal rationals, or the same special
    value. *)
Definition num_eq (a b : number) : Prop :=
  match a, b with
  | Fin p, Fin q => p == q
  | PosInfinity, PosInfinity | NegInfinity, NegInfinity | NaN, NaN => True
  | _, _ => False
  end.

Definition is_finite (a : number) : bool :=
  match a with Fin _ => true | _ => false end.

(** [Number.prototype.toFixed(digits)].  The digits printed for a finite
    number come from the engine and are taken as [render_finite]; the
    non-finite cases are fixed by the language. *)
Definition toFixed (render_finite : nat -> Q -> string) (digits : nat)
           (a : number) : string :=
  match a with
  | Fin q => render_finite digits q
  | PosInfinity => "Infinity"
  | NegInfinity => "-Infinity"
  | NaN => "NaN"
  end.

End JsNumber.

Import JsNumber.

Declare Scope jsnum_scope.
Delimit Scope jsnum_scope with js.
Infix "+" := add : jsnum_scope.
Infix "-" := sub : jsnum_scope.
Infix "*" := mul : jsnum_scope.
Infix "/" := div : jsnum_scope.
Infix "===" := num_eq (at level 70, no associativity) : jsnum_scope.

(* ------------------------------------------------------------------ *)
(** ** JavaScript dates *)
(* ------------------------------------------------------------------ *)

(** A value of an SQL [date] column is modelled by its day number (days
    since 1970-01-01).  The store prints it as [YYYY-MM-DD];
    [new Date("YYYY-MM-DD")] reads a date-only string as midnight UTC of
    that day.  A [Date] is its time value in milliseconds since the epoch.
    The local time zone is a fixed offset [tz] in milliseconds added to UTC
    to obtain local time. *)
Module JsDate.

Definition msPerDay : Z := 86400000.

(** [new Date(s)] for the date-only string of day [epochDay]. *)
Definition Date_of_dateonly (epochDay : Z) : Z := epochDay * msPerDay.

(** Day number of the local calendar day that contains instant [t]. *)
Definition localDay (tz t : Z) : Z := (t + tz) / msPerDay.

(** [d.setHours(0, 0, 0, 0)]: local midnight of the local day of [t]. *)
Definition setHours0 (tz t : Z) : Z := localDay tz t * msPerDay - tz.

(** Proleptic Gregorian calendar date of a day number: year, month
    (1..12) and day of month (1..31). *)
Definition civil_from_days (z0 : Z) : Z * Z * Z :=
  let z := z0 + 719468 in
  let era := z / 146097 in
  let doe := z - era * 146097 in
  let yoe := (doe - doe / 1460 + doe / 36524 - doe / 146096) / 365 in
  let y := yoe + era * 400 in
  let doy := doe - (365 * yoe + yoe / 4 - yoe / 100) in
  let mp := (5 * doy + 2) / 153 in
  let d := doy - (153 * mp + 2) / 5 + 1 in
  let m := if mp <? 10 then mp + 3 else mp - 9 in
  (if m <=? 2 then y + 1 else y, m, d).

(** Day number of a calendar date. *)
Definition days_from_civil (y0 m d : Z) : Z :=
  let y := if m <=? 2 then y0 - 1 else y0 in
  let era := y / 400 in
  let yoe := y - era * 400 in
  let mp := if m >? 2 then m - 3 else m + 9 in
  let doy := (153 * mp + 2) / 5 + d - 1 in
  let doe := yoe * 365 + yoe / 4 - yoe / 100 + doy in
  era * 146097 + doe - 719468.

Definition shortMonths : list string :=
  ["Jan"; "Feb"; "Mar"; "Apr"; "May"; "Jun";
   "Jul"; "Aug"; "Sep"; "Oct"; "Nov"; "Dec"]%string.

(** Decimal digits of an integer. *)
Definition string_of_Z (n : Z) : string := NilZero.string_of_int (Z.to_int n).

(** The label [d.toLocaleDateString('en-US', {month:'short', year:'numeric'})]
    of a calendar month, e.g. [Jan 2025]. *)
Definition monthLabel (year month : Z) : string :=
  (nth (Z.to_nat (month - 1)) shortMonths EmptyString
     ++ String " "%char (string_of_Z year))%string.

(** [new Date(s).toLocaleDateString('en-US', {month:'short', year:'numeric'})]
    for the date-only string of day [epochDay], formatted in local time. *)
Definition toLocaleMonthYear (tz epochDay : Z) : string :=
  let '(y, m, _) := civil_from_days (localDay tz (Date_of_dateonly epochDay)) in
  monthLabel y m.

End JsDate.

Import JsDate.

(* ------------------------------------------------------------------ *)
(** ** Data model (rows of the four tables) *)
(* ------------------------------------------------------------------ *)

(** [transactions.type]: the column is constrained to these two values. *)
Inductive TxType : Type := Income | Expense.

(** [bills.status]: the column is constrained to these three values. *)
Inductive BillStatus : Type := Paid | Pending | Overdue.

Definition TxType_eqb (a b : TxType) : bool :=
  match a, b with
  | Income, Income | Expense, Expense => true
  | _, _ => false
  end.

Definition BillStatus_eqb (a b : BillStatus) : bool :=
  match a, b with
  | Paid, Paid | Pending, Pending | Overdue, Overdue => true
  | _, _ => false
  end.

Module Goal.
Record t : Type := mk {
  id : string;
  user_id : string;
  title : string;
  target_amount : number;
  current_amount : number;
  deadline : option Z;
  category : string;
  description : string;
  created_at : string;
  updated_at : string
}.
End Goal.

Module Transaction.
Record t : Type := mk {
  id : string;
  user_id : string;
  type : TxType;
  amount : number;
  category : string;
  description : string;
  date : Z;
  created_at : string
}.
End Transaction.

Module Bill.
Record t : Type := mk {
  id : string;
  user_id : string;
  name : string;
  amount : number;
  due_date : Z;
  status : BillStatus;
  category : string;
  recurring : bool;
  created_at : string
}.

(** [{ ...bill, status: s }] *)
Definition with_status (bill : t) (s : BillStatus) : t :=
  mk (id bill) (user_id bill) (name bill) (amount bill) (due_date bill)
     s (category bill) (recurring bill) (created_at bill).
End Bill.

Module Investment.
Record t : Type := mk {
  id : string;
  user_id : string;
  name : string;
  type : string;
  amount_invested : number;
  current_value : number;
  purchase_date : Z;
  goal_id : option string;
  created_at : string;
  updated_at : string
}.

(** The row with its [goal_id] column set to [g]. *)
Definition with_goal_id (i : t) (g : option string) : t :=
  mk (id i) (user_id i) (name i) (type i) (amount_invested i)
     (current_value i) (purchase_date i) g (created_at i) (updated_at i).
End Investment.

(* ------------------------------------------------------------------ *)
(** ** The store: four tables, row-level security, foreign keys *)
(* ------------------------------------------------------------------ *)

Module Store.

Record Database : Type := mkDatabase {
  goals : list Goal.t;
  transactions : list Transaction.t;
  bills : list Bill.t;
  investments : list Investment.t
}.

(** [from('goals').select('*').eq('user_id', uid)] and its siblings.  The
    row-level-security policies restrict every statement to the rows
    whose [user_id] is the caller's, which is the same filter. *)
Definition select_goals (uid : string) (db : Database) : list Goal.t :=
  filter (fun g => String.eqb (Goal.user_id g) uid) (goals db).

Definition select_transactions (uid : string) (db : Database)
  : list Transaction.t :=
  filter (fun t => String.eqb (Transaction.user_id t) uid) (transactions db).

Definition select_bills (uid : string) (db : Database) : list Bill.t :=
  filter (fun b => String.eqb (Bill.user_id b) uid) (bills db).

Definition select_investments (uid : string) (db : Database)
  : list Investment.t :=
  filter (fun i => String.eqb (Investment.user_id i) uid) (investments db).

(** [from('bills').select('*').eq('user_id', uid).eq('status', s)] *)
Definition select_bills_with_status (uid : string) (s : BillStatus)
           (db : Database) : list Bill.t :=
  filter (fun b => BillStatus_eqb (Bill.status b) s) (select_bills uid db).

(** Whether the statement [from('goals').delete().eq('id', id)] issued by
    user [uid] removes row [g]: the [id] matches and the delete policy
    [auth.uid() = user_id] admits the row. *)
Definition goal_deleted (uid id : string) (g : Goal.t) : bool :=
  String.eqb (Goal.id g) id && String.eqb (Goal.user_id g) uid.

(** Whether an investment row references a goal removed by that
    statement. *)
Definition references_deleted (uid id : string) (gs : list Goal.t)
           (i : Investment.t) : bool :=
  match Investment.goal_id i with
  | None => false
  | Some g => existsb (fun x => goal_deleted uid id x && String.eqb (Goal.id x) g) gs
  end.

(** [goal_id uuid REFERENCES goals(id) ON DELETE SET NULL]: the
    referential action applied to one investment row. *)
Definition on_delete_set_null (uid id : string) (gs : list Goal.t)
           (i : Investment.t) : Investment.t :=
  if references_deleted uid id gs i
  then Investment.with_goal_id i None
  else i.

(** [from('goals').delete().eq('id', id)] run by user [uid]. *)
Definition delete_goal (uid id : string) (db : Database) : Database :=
  mkDatabase
    (filter (fun g => negb (goal_deleted uid id g)) (goals db))
    (transactions db)
    (bills db)
    (map (on_delete_set_null uid id (goals db)) (investments db)).

End Store.

(* ------------------------------------------------------------------ *)
(** ** Bills page *)
(* ------------------------------------------------------------------ *)

Module Bills.

(** The callback of [(data || []).map(...)] in [loadBills], with the
    clock reading [now] of [new Date()] and the time zone [tz]. *)
Definition billWithStatus (tz now : Z) (bill : Bill.t) : Bill.t :=
  if negb (BillStatus_eqb (Bill.status bill) Paid) then
    let dueDate := Date_of_dateonly (Bill.due_date bill) in
    let today := setHours0 tz now in
    if dueDate <? today
    then Bill.with_status bill Overdue
    else bill
  else bill.

Definition billsWithStatus (tz now : Z) (data : list Bill.t) : list Bill.t :=
  map (billWithStatus tz now) data.

(** The status a bill is displayed with. *)
Definition effectiveStatus (tz now : Z) (bill : Bill.t) : BillStatus :=
  Bill.status (billWithStatus tz now bill).

(** [bills.filter((b) => b.status === s)] *)
Definition billsOfStatus (s : BillStatus) (bills : list Bill.t) : list Bill.t :=
  filter (fun b => BillStatus_eqb (Bill.status b) s) bills.

Definition pendingBills (bills : list Bill.t) := billsOfStatus Pending bills.
Definition overdueBills (bills : list Bill.t) := billsOfStatus Overdue bills.
Definition paidBills (bills : list Bill.t) := billsOfStatus Paid bills.

End Bills.

(* ------------------------------------------------------------------ *)
(** ** Dashboard and the net worth shown in the layout *)
(* ------------------------------------------------------------------ *)

Module Dashboard.

Record DashboardStats : Type := mkStats {
  netWorth : number;
  totalIncome : number;
  totalExpenses : number;
  activeGoals : nat;
  pendingBills : nat;
  investmentValue : number
}.

(** [transactions.filter((t) => t.type === ty)
      .reduce((sum, t) => sum + Number(t.amount), 0)] *)
Definition totalOfType (ty : TxType) (transactions : list Transaction.t)
  : number :=
  fold_left (fun sum t => (sum + Number (Transaction.amount t))%js)
            (filter (fun t => TxType_eqb (Transaction.type t) ty) transactions)
            zero.

(** [investments.reduce((sum, i) => sum + Number(i.current_value), 0)] *)
Definition sumCurrentValue (investments : list Investment.t) : number :=
  fold_left (fun sum i => (sum + Number (Investment.current_value i))%js)
            investments zero.

(** The part of [loadDashboardData] that follows the four fetches; the
    value given to [setStats]. *)
Definition stats (transactions : list Transaction.t) (goals : list Goal.t)
           (bills : list Bill.t) (investments : list Investment.t)
  : DashboardStats :=
  let totalIncome := totalOfType Income transactions in
  let totalExpenses := totalOfType Expense transactions in
  let investmentValue := sumCurrentValue investments in
  let netWorth := (totalIncome - totalExpenses + investmentValue)%js in
  mkStats netWorth totalIncome totalExpenses
          (List.length goals) (List.length bills) investmentValue.

Definition loadDashboardData (uid : string) (db : Store.Database)
  : DashboardStats :=
  stats (Store.select_transactions uid db)
        (Store.select_goals uid db)
        (Store.select_bills_with_status uid Pending db)
        (Store.select_investments uid db).

End Dashboard.

Module App.

(** The part of [loadNetWorth] that follows the two fetches; the value
    given to [setNetWorth]. *)
Definition netWorthOf (transactions : list Transaction.t)
           (investments : list Investment.t) : number :=
  let totalIncome := Dashboard.totalOfType Income transactions in
  let totalExpenses := Dashboard.totalOfType Expense transactions in
  let investmentValue := Dashboard.sumCurrentValue investments in
  (totalIncome - totalExpenses + investmentValue)%js.

Definition loadNetWorth (uid : string) (db : Store.Database) : number :=
  netWorthOf (Store.select_transactions uid db)
             (Store.select_investments uid db).

End App.

(* ------------------------------------------------------------------ *)
(** ** Plain objects used as string-keyed maps *)
(* ------------------------------------------------------------------ *)

(** An object literal filled by assignment: its own properties, kept in
    creation order.  Property names that collide with members inherited
    from [Object.prototype] are outside the model. *)
Module JsObject.

Definition t (V : Type) : Type := list (string * V).

Definition empty {V : Type} : t V := [].

(** [obj[key]], [None] standing for [undefined]. *)
Fixpoint get {V : Type} (obj : t V) (key : string) : option V :=
  match obj with
  | [] => None
  | (k, v) :: rest => if String.eqb k key then Some v else get rest key
  end.

Definition has {V : Type} (obj : t V) (key : string) : bool :=
  match get obj key with Some _ => true | None => false end.

(** [obj[key] = v]: an existing property keeps its place, a new one is
    created last. *)
Fixpoint set {V : Type} (obj : t V) (key : string) (v : V) : t V :=
  match obj with
  | [] => [(key, v)]
  | (k, w) :: rest =>
      if String.eqb k key then (k, v) :: rest else (k, w) :: set rest key v
  end.

(** In-place change of the value stored under [key]. *)
Fixpoint update {V : Type} (obj : t V) (key : string) (f : V -> V) : t V :=
  match obj with
  | [] => []
  | (k, w) :: rest =>
      if String.eqb k key then (k, f w) :: rest else (k, w) :: update rest key f
  end.

Definition is_digit (c : ascii) : bool :=
  let n := nat_of_ascii c in (48 <=? n)%nat && (n <=? 57)%nat.

Fixpoint all_digits (s : string) : bool :=
  match s with
  | EmptyString => true
  | String c rest => is_digit c && all_digits rest
  end.

Fixpoint decimal_value (acc : Z) (s : string) : Z :=
  match s with
  | EmptyString => acc
  | String c rest => decimal_value (10 * acc + (Z.of_nat (nat_of_ascii c) - 48)) rest
  end.

(** A property name is an array index when it is the canonical decimal
    form of an integer in [0, 2^32 - 2]. *)
Definition is_array_index (key : string) : bool :=
  match key with
  | EmptyString => false
  | String c rest =>
      all_digits key
      && (negb (Ascii.eqb c "0"%char) || String.eqb rest EmptyString)
      && (decimal_value 0 key <? 4294967295)
  end.

Fixpoint insert_by_index {V : Type} (e : string * V) (l : list (string * V))
  : list (string * V) :=
  match l with
  | [] => [e]
  | e' :: rest =>
      if decimal_value 0 (fst e) <=? decimal_value 0 (fst e')
      then e :: l
      else e' :: insert_by_index e rest
  end.

(** [Object.entries(obj)]: array-index names first in ascending numeric
    order, then the other names in creation order. *)
Definition Object_entries {V : Type} (obj : t V) : list (string * V) :=
  fold_right insert_by_index [] (filter (fun e => is_array_index (fst e)) obj)
  ++ filter (fun e => negb (is_array_index (fst e))) obj.


End JsObject.

(* ------------------------------------------------------------------ *)
(** ** Visual analysis page *)
(* ------------------------------------------------------------------ *)

Module CategoryData.
Record t : Type := mk {
  category : string;
  amount : number;
  percentage : number
}.
End CategoryData.

Module MonthData.
Record t : Type := mk {
  income : number;
  expense : number
}.
End MonthData.

Module MonthRow.
Record t : Type := mk {
  month : string;
  income : number;
  expense : number
}.
End MonthRow.

Module VisualAnalysis.

(** [arr.sort(cmp)]: stable; [x] moves behind [y] only when
    [cmp(x, y) > 0] (a [NaN] result counts as [0]). *)
Fixpoint sort_insert {A : Type} (cmp : A -> A -> number) (x : A) (l : list A)
  : list A :=
  match l with
  | [] => [x]
  | y :: rest =>
      if gtb (cmp x y) zero then y :: sort_insert cmp x rest else x :: l
  end.

Definition Array_sort {A : Type} (cmp : A -> A -> number) (l : list A) : list A :=
  fold_right (sort_insert cmp) [] l.

(** [transactions.filter((t) => t.type === ty)] *)
Definition transactionsOfType (ty : TxType) (transactions : list Transaction.t)
  : list Transaction.t :=
  filter (fun t => TxType_eqb (Transaction.type t) ty) transactions.

(** [list.reduce((sum, t) => sum + Number(t.amount), 0)] *)
Definition total (list : list Transaction.t) : number :=
  fold_left (fun sum t => (sum + Number (Transaction.amount t))%js) list zero.

(** Body of the [forEach] that fills [incomeCategories] or
    [expenseCategories]:
    [categories[t.category] = (categories[t.category] || 0) + Number(t.amount)] *)
Definition addToCategory (categories : JsObject.t number) (t : Transaction.t)
  : JsObject.t number :=
  let current :=
    match JsObject.get categories (Transaction.category t) with
    | Some v => or_else v zero
    | None => zero
    end in
  JsObject.set categories (Transaction.category t)
               (current + Number (Transaction.amount t))%js.

Definition categoriesOf (list : list Transaction.t) : JsObject.t number :=
  fold_left addToCategory list JsObject.empty.

(** [Object.entries(categories).map(([category, amount]) =>
      ({ category, amount, percentage: (amount / total) * 100 }))] *)
Definition categoryData (categories : JsObject.t number) (totalForType : number)
  : list CategoryData.t :=
  map (fun e => CategoryData.mk (fst e) (snd e)
                  ((snd e / totalForType) * hundred)%js)
      (JsObject.Object_entries categories).

(** [(a, b) => b.amount - a.amount] *)
Definition byAmountDesc (a b : CategoryData.t) : number :=
  (CategoryData.amount b - CategoryData.amount a)%js.

(** The rows given to [setIncomeByCategory] ([ty = Income]) and to
    [setExpenseByCategory] ([ty = Expense]). *)
Definition categoryBreakdown (ty : TxType) (transactions : list Transaction.t)
  : list CategoryData.t :=
  let ofType := transactionsOfType ty transactions in
  Array_sort byAmountDesc (categoryData (categoriesOf ofType) (total ofType)).

(** Body of the [forEach] that fills [monthlyMap]. *)
Definition addToMonth (tz : Z) (monthlyMap : JsObject.t MonthData.t)
           (t : Transaction.t) : JsObject.t MonthData.t :=
  let month := toLocaleMonthYear tz (Transaction.date t) in
  let monthlyMap1 :=
    if negb (JsObject.has monthlyMap month)
    then JsObject.set monthlyMap month (MonthData.mk zero zero)
    else monthlyMap in
  if TxType_eqb (Transaction.type t) Income
  then JsObject.update monthlyMap1 month
         (fun d => MonthData.mk
                     (MonthData.income d + Number (Transaction.amount t))%js
                     (MonthData.expense d))
  else JsObject.update monthlyMap1 month
         (fun d => MonthData.mk
                     (MonthData.income d)
                     (MonthData.expense d + Number (Transaction.amount t))%js).

Definition monthlyMapOf (tz : Z) (transactions : list Transaction.t)
  : JsObject.t MonthData.t :=
  fold_left (addToMonth tz) transactions JsObject.empty.

(** [Object.entries(monthlyMap).map(([month, data]) => ({ month, ...data }))],
    the array given to [setMonthlyData]. *)
Definition monthlySeries (tz : Z) (transactions : list Transaction.t)
  : list MonthRow.t :=
  map (fun e => MonthRow.mk (fst e) (MonthData.income (snd e))
                            (MonthData.expense (snd e)))
      (JsObject.Object_entries (monthlyMapOf tz transactions)).

End VisualAnalysis.

(* ------------------------------------------------------------------ *)
(** ** Goals page *)
(* ------------------------------------------------------------------ *)

Module InvestmentGoals.

(** [(Number(goal.current_amount) / Number(goal.target_amount)) * 100] *)
Definition progress (goal : Goal.t) : number :=
  ((Number (Goal.current_amount goal) / Number (Goal.target_amount goal))
   * hundred)%js.

(** The text of the progress label, [progress.toFixed(1)] followed by a
    percent sign. *)
Definition progressLabel (render_finite : nat -> Q -> string) (goal : Goal.t)
  : string :=
  (toFixed render_finite 1 (progress goal) ++ "%")%string.

(** The percentage used as width of the goal's progress bar,
    [Math.min(progress, 100)]. *)
Definition progressBarWidth (goal : Goal.t) : number :=
  Math_min (progress goal) hundred.

Definition totalPortfolioValue (goals : list Goal.t) : number :=
  fold_left (fun sum goal => (sum + Number (Goal.current_amount goal))%js)
            goals zero.

Definition totalTargetCap (goals : list Goal.t) : number :=
  fold_left (fun sum goal => (sum + Number (Goal.target_amount goal))%js)
            goals zero.

(** The percentage used as width of the summary bar:
    [totalTargetCap > 0 ? (totalPortfolioValue / totalTargetCap) * 100 : 0]. *)
Definition summaryBarWidth (goals : list Goal.t) : number :=
  if gtb (totalTargetCap goals) zero
  then ((totalPortfolioValue goals / totalTargetCap goals) * hundred)%js
  else zero.

(** [deleteGoal(id)]; [confirmed] is the answer to the confirmation
    dialog. *)
Definition deleteGoal (uid id : string) (confirmed : bool)
           (db : Store.Database) : Store.Database :=
  if negb confirmed then db else Store.delete_goal uid id db.

End InvestmentGoals.

(* ------------------------------------------------------------------ *)
(** ** CSV export *)
(* ------------------------------------------------------------------ *)

Module ExportData.

(** The values a fetched row holds: the columns are text, numeric,
    boolean, date or timestamp (both delivered as strings), possibly
    null.  Strings are sequences of code units below 256. *)
Inductive JsValue : Type :=
| VNull
| VUndefined
| VString (s : string)
| VNumber (n : number)
| VBoolean (b : bool).

Definition comma : ascii := ","%char.
Definition dquote : ascii := "034"%char.
Definition newline : ascii := "010"%char.

(** [s.includes(c)] for a one-character search string. *)
Fixpoint includes (s : string) (c : ascii) : bool :=
  match s with
  | EmptyString => false
  | String x rest => Ascii.eqb x c || includes rest c
  end.

(** [s.replace] with the global pattern matching one double-quote
    character and a replacement text of two of them. *)
Fixpoint double_quotes (s : string) : string :=
  match s with
  | EmptyString => EmptyString
  | String x rest =>
      if Ascii.eqb x dquote
      then String dquote (String dquote (double_quotes rest))
      else String x (double_quotes rest)
  end.

Section Csv.

(** The engine's conversion of a number to text. *)
Variable Number_toString : number -> string.

(** [String(value)] *)
Definition ToString (value : JsValue) : string :=
  match value with
  | VNull => "null"
  | VUndefined => "undefined"
  | VString s => s
  | VNumber n => Number_toString n
  | VBoolean true => "true"
  | VBoolean false => "false"
  end.

(** The callback of [headers.map(...)], applied to [row[header]]. *)
Definition csvField (value : JsValue) : string :=
  match value with
  | VNull | VUndefined => EmptyString
  | _ =>
      let stringValue := ToString value in
      if includes stringValue comma
         || includes stringValue dquote
         || includes stringValue newline
      then String dquote (double_quotes stringValue ++ String dquote EmptyString)
      else stringValue
  end.

(** [row[header]] *)
Definition field (row : JsObject.t JsValue) (header : string) : JsValue :=
  match JsObject.get row header with
  | Some v => v
  | None => VUndefined
  end.



End Csv.

End ExportData.

(* ------------------------------------------------------------------ *)
(** ** Transactions page (free-text date field) *)
(* ------------------------------------------------------------------ *)

Module Transactions.

Record FormData : Type := mkForm {
  type : TxType;
  amount : string;
  category : string;
  description : string;
  date : string
}.

(** [s.split("-")] for a one-character separator. *)
Fixpoint split (sep : ascii) (s : string) : list string :=
  match s with
  | EmptyString => [EmptyString]
  | String c rest =>
      if Ascii.eqb c sep
      then EmptyString :: split sep rest
      else match split sep rest with
           | [] => [String c EmptyString]
           | part :: parts => String c part :: parts
           end
  end.

(** A destructured array element inside a template literal. *)
Definition interpolate (part : option string) : string :=
  match part with
  | Some s => s
  | None => "undefined"
  end.

Definition hyphen : ascii := "-"%char.

Definition formatDate (input : string) : string :=
  let parts := split hyphen input in
  if ExportData.includes input hyphen
     && Nat.eqb (String.length (nth 0 parts EmptyString)) 2
  then
    let day := nth_error parts 0 in
    let month := nth_error parts 1 in
    let year := nth_error parts 2 in
    (interpolate year ++ String hyphen (interpolate month)
       ++ String hyphen (interpolate day))%string
  else input.

Inductive Outcome : Type := Saved | Failed.

Section Submit.

(** The engine's [parseFloat]. *)
Variable parseFloat : string -> number.

(** The store's conversion of a text value to the SQL type [date] of
    the [transactions.date] column; [None] is the store's error for a
    text that is not a date. *)
Variable date_in : string -> option Z.

(** [from("transactions").insert({...})] by user [uid].  [new_id] and
    [stamp] are the column defaults [gen_random_uuid()] and [now()].
    A [NaN] or infinite amount travels as JSON [null] and violates
    [amount numeric NOT NULL]. *)
Definition insert (uid new_id stamp : string) (ty : TxType) (amt : number)
           (cat desc dt : string) (db : Store.Database)
  : option Store.Database :=
  if is_finite amt then
    match date_in dt with
    | Some d =>
        Some (Store.mkDatabase
                (Store.goals db)
                (Store.transactions db
                   ++ [Transaction.mk new_id uid ty amt cat desc d stamp])
                (Store.bills db)
                (Store.investments db))
    | None => None
    end
  else None.

(** [from("transactions").update({...}).eq("id", id)] by user [uid]. *)
Definition update (uid id : string) (ty : TxType) (amt : number)
           (cat desc dt : string) (db : Store.Database)
  : option Store.Database :=
  if is_finite amt then
    match date_in dt with
    | Some d =>
        Some (Store.mkDatabase
                (Store.goals db)
                (map (fun t =>
                        if String.eqb (Transaction.id t) id
                           && String.eqb (Transaction.user_id t) uid
                        then Transaction.mk (Transaction.id t)
                               (Transaction.user_id t) ty amt cat desc d
                               (Transaction.created_at t)
                        else t)
                     (Store.transactions db))
                (Store.bills db)
                (Store.investments db))
    | None => None
    end
  else None.

(** [handleSubmit]: the store after the submission and whether the
    success path or the [catch] branch ran. *)
Definition handleSubmit (uid new_id stamp : string)
           (editingTransaction : option Transaction.t)
           (formData : FormData) (db : Store.Database)
  : Store.Database * Outcome :=
  let formattedDate := formatDate (date formData) in
  let result :=
    match editingTransaction with
    | Some editing =>
        update uid (Transaction.id editing) (type formData)
               (parseFloat (amount formData)) (category formData)
               (description formData) formattedDate db
    | None =>
        insert uid new_id stamp (type formData)
               (parseFloat (amount formData)) (category formData)
               (description formData) formattedDate db
    end in
  match result with
  | Some db' => (db', Saved)
  | None => (db, Failed)
  end.

End Submit.

(** A date input function that accepts exactly the form [YYYY-MM-DD] of
    an existing calendar day. *)
Definition digit_value (c : ascii) : Z := Z.of_nat (nat_of_ascii c) - 48.

Definition is_leap (y : Z) : bool :=
  ((y mod 4 =? 0) && negb (y mod 100 =? 0)) || (y mod 400 =? 0).

Definition days_in_month (y m : Z) : Z :=
  if m =? 2 then (if is_leap y then 29 else 28)
  else if (m =? 4) || (m =? 6) || (m =? 9) || (m =? 11) then 30
  else 31.

Definition iso_date_in (s : string) : option Z :=
  match list_ascii_of_string s with
  | [y1; y2; y3; y4; h1; m1; m2; h2; d1; d2] =>
      if forallb JsObject.is_digit [y1; y2; y3; y4; m1; m2; d1; d2]
         && Ascii.eqb h1 hyphen && Ascii.eqb h2 hyphen
      then
        let y := 1000 * digit_value y1 + 100 * digit_value y2
                 + 10 * digit_value y3 + digit_value y4 in
        let m := 10 * digit_value m1 + digit_value m2 in
        let d := 10 * digit_value d1 + digit_value d2 in
        if (1 <=? m) && (m <=? 12) && (1 <=? d) && (d <=? days_in_month y m)
        then Some (days_from_civil y m d)
        else None
      else None
  | _ => None
  end.

(** A [parseFloat] for unsigned integer literals; anything else is
    [NaN]. *)
Definition parseFloat_digits (s : string) : number :=
  match s with
  | EmptyString => NaN
  | _ => if JsObject.all_digits s
         then Fin (inject_Z (JsObject.decimal_value 0 s))
         else NaN
  end.

End Transactions.

(* ------------------------------------------------------------------ *)
(** ** Reference definitions for the aggregation contract *)
(* ------------------------------------------------------------------ *)

(** The aggregation functions as the design document words them, used as
    the reference the pages are compared with. *)
Module Spec.

(** Sum of [f] over a list. *)
Fixpoint sum_of {A : Type} (f : A -> number) (l : list A) : number :=
  match l with
  | [] => zero
  | x :: rest => (f x + sum_of f rest)%js
  end.

(** [totalByType(transactions, type)]: sums [amount] where [type]
    matches. *)
Definition totalByType (transactions : list Transaction.t) (ty : TxType)
  : number :=
  sum_of Transaction.amount
         (filter (fun t => TxType_eqb (Transaction.type t) ty) transactions).

(** [netWorth(transactions, investments)]:
    [sum(income) - sum(expense) + sum(investment.currentValue)]. *)
Definition netWorth (transactions : list Transaction.t)
           (investments : list Investment.t) : number :=
  (totalByType transactions Income - totalByType transactions Expense
   + sum_of Investment.current_value investments)%js.

(** The distinct elements of a list, each at the place of its first
    occurrence. *)
Fixpoint first_occurrences {A : Type} (eqb : A -> A -> bool) (l : list A)
  : list A :=
  match l with
  | [] => []
  | k :: rest =>
      k :: filter (fun x => negb (eqb x k)) (first_occurrences eqb rest)
  end.

(** The calendar month (year and month number) that contains the day
    [epochDay]. *)
Definition calendarMonth (epochDay : Z) : Z * Z :=
  let '(y, m, _) := civil_from_days epochDay in (y, m).

Definition sameMonth (a b : Z * Z) : bool :=
  (fst a =? fst b) && (snd a =? snd b).

(** The transactions of type [ty] dated in the calendar month [ym]. *)
Definition inMonth (ym : Z * Z) (ty : TxType)
           (transactions : list Transaction.t) : list Transaction.t :=
  filter (fun t => sameMonth (calendarMonth (Transaction.date t)) ym
                   && TxType_eqb (Transaction.type t) ty)
         transactions.

(** [monthlySeries(transactions)]: one row per calendar month of the
    transactions' dates, in order of the first occurrence of the month,
    keyed by the label of the month, with the income sum and the expense
    sum of the month. *)
Definition monthlySeries (transactions : list Transaction.t)
  : list MonthRow.t :=
  map (fun ym =>
         MonthRow.mk (monthLabel (fst ym) (snd ym))
           (VisualAnalysis.total (inMonth ym Income transactions))
           (VisualAnalysis.total (inMonth ym Expense transactions)))
      (first_occurrences sameMonth
         (map (fun t => calendarMonth (Transaction.date t)) transactions)).

(** Whether a month key has the form [YYYY-MM]. *)
Definition is_YYYY_MM (key : string) : bool :=
  match list_ascii_of_string key with
  | [y1; y2; y3; y4; h; m1; m2] =>
      forallb JsObject.is_digit [y1; y2; y3; y4; m1; m2]
      && Ascii.eqb h "-"%char
  | _ => false
  end.

(** Whether a text contains a comma, a double quote or a newline. *)
Definition contains_special (s : string) : bool :=
  existsb (fun c => Ascii.eqb c ExportData.comma
                    || Ascii.eqb c ExportData.dquote
                    || Ascii.eqb c ExportData.newline)
          (list_ascii_of_string s).

(** A text between double quotes, every double quote inside it doubled:
    the pieces between the double quotes of the text, joined by two double
    quotes. *)
Definition quoted (s : string) : string :=
  let dq := String ExportData.dquote EmptyString in
  (dq ++ String.concat (dq ++ dq) (Transactions.split ExportData.dquote s) ++ dq)%string.

End Spec.

(* ------------------------------------------------------------------ *)
(** ** Auxiliary definitions for the monthly series *)
(* ------------------------------------------------------------------ *)

Module Monthly.

(** The key under which [addToMonth] files a transaction. *)
Definition monthKey (tz : Z) (t : Transaction.t) : string :=
  toLocaleMonthYear tz (Transaction.date t).

(** What one transaction adds to the totals of its month. *)
Definition bump (t : Transaction.t) (d : MonthData.t) : MonthData.t :=
  if TxType_eqb (Transaction.type t) Income
  then MonthData.mk (MonthData.income d + Number (Transaction.amount t))%js
                    (MonthData.expense d)
  else MonthData.mk (MonthData.income d)
                    (MonthData.expense d + Number (Transaction.amount t))%js.

(** The totals of the month filed under [label] after a run of
    transactions, starting from [d]. *)
Definition monthTotals (tz : Z) (label : string) (ts : list Transaction.t)
           (d : MonthData.t) : MonthData.t :=
  fold_left (fun acc t => if String.eqb (monthKey tz t) label then bump t acc else acc)
            ts d.

(** The transactions of type [ty] filed under [label]. *)
Definition filed (tz : Z) (label : string) (ty : TxType)
           (ts : list Transaction.t) : list Transaction.t :=
  filter (fun t => String.eqb (monthKey tz t) label
                   && TxType_eqb (Transaction.type t) ty) ts.

Definition keys {V : Type} (obj : JsObject.t V) : list string := map fst obj.

Definition absent (ks : list string) (k : string) : bool :=
  negb (existsb (String.eqb k) ks).

Definition zero2 : MonthData.t := MonthData.mk zero zero.

(** [P] holds for the [n] integers from [z] on. *)
Fixpoint all_from (P : Z -> bool) (n : nat) (z : Z) : bool :=
  match n with
  | O => true
  | S n' => P z && all_from P n' (z + 1)
  end.

(** Whether the civil date of a day has a month number from 1 to 12. *)
Definition month_in_range (epochDay : Z) : bool :=
  let '(_, m, _) := civil_from_days epochDay in (1 <=? m) && (m <=? 12).

(** What [update] does to one property. *)
Definition touch {V : Type} (k : string) (f : V -> V) (e : string * V)
  : string * V :=
  if String.eqb (fst e) k then (fst e, f (snd e)) else e.

(** The label of a calendar month given as a pair. *)
Definition label_of (ym : Z * Z) : string := monthLabel (fst ym) (snd ym).

End Monthly.

(* ------------------------------------------------------------------ *)
(** ** Bills page: summary cards and row actions *)
(* ------------------------------------------------------------------ *)

Module BillsPage.

(** [list.reduce((sum, b) => sum + Number(b.amount), 0)] *)
Definition total (bills : list Bill.t) : number :=
  fold_left (fun sum b => (sum + Number (Bill.amount b))%js) bills zero.



Definition totalPaid (bills : list Bill.t) : number :=
  total (Bills.paidBills bills).

(** [from('bills').update({ status: 'paid' }).eq('id', bill.id)] run by
    user [uid]; the update policy admits the user's own rows only. *)
Definition markAsPaid (uid : string) (bill : Bill.t) (db : Store.Database)
  : Store.Database :=
  Store.mkDatabase
    (Store.goals db)
    (Store.transactions db)
    (map (fun b =>
            if String.eqb (Bill.id b) (Bill.id bill)
               && String.eqb (Bill.user_id b) uid
            then Bill.with_status b Paid
            else b)
         (Store.bills db))
    (Store.investments db).

(** [deleteBill(id)]: [from('bills').delete().eq('id', id)] run by user
    [uid] once the dialog is confirmed. *)
Definition deleteBill (uid id : string) (confirmed : bool)
           (db : Store.Database) : Store.Database :=
  if negb confirmed then db
  else Store.mkDatabase
         (Store.goals db)
         (Store.transactions db)
         (filter (fun b => negb (String.eqb (Bill.id b) id
                                 && String.eqb (Bill.user_id b) uid))
                 (Store.bills db))
         (Store.investments db).

(** Whether the bill card offers the button that marks the bill as paid. *)
Definition offersMarkAsPaid (bill : Bill.t) : bool :=
  negb (BillStatus_eqb (Bill.status bill) Paid).

End BillsPage.

(* ------------------------------------------------------------------ *)
(** ** Transactions page: filter, totals and deletion *)
(* ------------------------------------------------------------------ *)

Module TransactionsPage.

(** The state [filterType]. *)
Inductive FilterType : Type := FilterAll | FilterIncome | FilterExpense.

(** [transactions.filter((t) =>
      filterType === 'all' ? true : t.type === filterType)] *)
Definition filteredTransactions (filterType : FilterType)
           (transactions : list Transaction.t) : list Transaction.t :=
  filter (fun t =>
            match filterType with
            | FilterAll => true
            | FilterIncome => TxType_eqb (Transaction.type t) Income
            | FilterExpense => TxType_eqb (Transaction.type t) Expense
            end)
         transactions.

Definition totalIncome (transactions : list Transaction.t) : number :=
  fold_left (fun sum t => (sum + Number (Transaction.amount t))%js)
            (filter (fun t => TxType_eqb (Transaction.type t) Income) transactions)
            zero.

Definition totalExpenses (transactions : list Transaction.t) : number :=
  fold_left (fun sum t => (sum + Number (Transaction.amount t))%js)
            (filter (fun t => TxType_eqb (Transaction.type t) Expense) transactions)
            zero.



(** [openEditModal(transaction)]: the form filled from a row; the date of
    the row is delivered as text by [date_out] and its amount by
    [Number_toString]. *)
Definition openEditModal (Number_toString : number -> string)
           (date_out : Z -> string) (transaction : Transaction.t)
  : Transactions.FormData :=
  Transactions.mkForm (Transaction.type transaction)
                      (Number_toString (Transaction.amount transaction))
                      (Transaction.category transaction)
                      (Transaction.description transaction)
                      (date_out (Transaction.date transaction)).

End TransactionsPage.

(* ------------------------------------------------------------------ *)
(** ** Dashboard: savings rate *)
(* ------------------------------------------------------------------ *)

Module DashboardView.

(** The percentage used as width of the savings bar:
    [stats.totalIncome > 0
       ? ((stats.totalIncome - stats.totalExpenses) / stats.totalIncome * 100)
       : 0]. *)
Definition savingsRate (stats : Dashboard.DashboardStats) : number :=
  if gtb (Dashboard.totalIncome stats) zero
  then (((Dashboard.totalIncome stats - Dashboard.totalExpenses stats)
         / Dashboard.totalIncome stats) * hundred)%js
  else zero.


End DashboardView.

(* ------------------------------------------------------------------ *)
(** ** Goals page: remaining amount and the goal form *)
(* ------------------------------------------------------------------ *)

Module GoalsPage.

(** [totalTargetCap - totalPortfolioValue] *)
Definition remaining (goals : list Goal.t) : number :=
  (InvestmentGoals.totalTargetCap goals
   - InvestmentGoals.totalPortfolioValue goals)%js.

Record FormData : Type := mkForm {
  title : string;
  target_amount : string;
  current_amount : string;
  deadline : string;
  category : string;
  description : string
}.

Section Submit.

(** The engine's [parseFloat]. *)
Variable parseFloat : string -> number.

(** The store's conversion of a text value to the SQL type [date] of the
    [goals.deadline] column. *)
Variable date_in : string -> option Z.

(** The value sent for the nullable [deadline] column,
    [formData.deadline || null], as the store reads it: [Some None] is SQL
    null, [None] the store's error for a text that is not a date. *)
Definition deadline_in (text : string) : option (option Z) :=
  if String.eqb text EmptyString then Some None
  else match date_in text with
       | Some d => Some (Some d)
       | None => None
       end.

(** [from('goals').insert({...})] by user [uid]; [new_id] and [stamp] are
    the column defaults.  Both amounts are [numeric NOT NULL]. *)
Definition insert (uid new_id stamp : string) (formData : FormData)
           (db : Store.Database) : option Store.Database :=
  if is_finite (parseFloat (target_amount formData))
     && is_finite (parseFloat (current_amount formData))
  then
    match deadline_in (deadline formData) with
    | Some dl =>
        Some (Store.mkDatabase
                (Store.goals db
                   ++ [Goal.mk new_id uid (title formData)
                               (parseFloat (target_amount formData))
                               (parseFloat (current_amount formData))
                               dl (category formData) (description formData)
                               stamp stamp])
                (Store.transactions db)
                (Store.bills db)
                (Store.investments db))
    | None => None
    end
  else None.

(** [from('goals').update({..., updated_at: now}).eq('id', id)] by user
    [uid]. *)
Definition update (uid id stamp : string) (formData : FormData)
           (db : Store.Database) : option Store.Database :=
  if is_finite (parseFloat (target_amount formData))
     && is_finite (parseFloat (current_amount formData))
  then
    match deadline_in (deadline formData) with
    | Some dl =>
        Some (Store.mkDatabase
                (map (fun g =>
                        if String.eqb (Goal.id g) id
                           && String.eqb (Goal.user_id g) uid
                        then Goal.mk (Goal.id g) (Goal.user_id g)
                               (title formData)
                               (parseFloat (target_amount formData))
                               (parseFloat (current_amount formData))
                               dl (category formData) (description formData)
                               (Goal.created_at g) stamp
                        else g)
                     (Store.goals db))
                (Store.transactions db)
                (Store.bills db)
                (Store.investments db))
    | None => None
    end
  else None.

(** [handleSubmit] of the goal form: the store afterwards and whether the
    success path ran. *)
Definition handleSubmit (uid new_id stamp : string)
           (editingGoal : option Goal.t) (formData : FormData)
           (db : Store.Database) : Store.Database * bool :=
  let result :=
    match editingGoal with
    | Some editing => update uid (Goal.id editing) stamp formData db
    | None => insert uid new_id stamp formData db
    end in
  match result with
  | Some db' => (db', true)
  | None => (db, false)
  end.

End Submit.

End GoalsPage.

(* ------------------------------------------------------------------ *)
(** ** Auxiliary predicates on numbers *)
(* ------------------------------------------------------------------ *)

(** A finite number that is not negative. *)
Definition nonneg (a : number) : bool :=
  match a with
  | Fin q => Qle_bool 0 q
  | _ => false
  end.

(* ------------------------------------------------------------------ *)
(** ** Visual analysis page: bars of a month and top categories *)
(* ------------------------------------------------------------------ *)

Module VisualAnalysisView.



(** [item.income - item.expense] *)
Definition net (item : MonthRow.t) : number :=
  (MonthRow.income item - MonthRow.expense item)%js.


(** [monthlyData.length] *)
Definition monthsTracked (monthlyData : list MonthRow.t) : nat :=
  List.length monthlyData.

End VisualAnalysisView.

(* ------------------------------------------------------------------ *)
(** ** Auxiliary definitions for the category breakdown *)
(* ------------------------------------------------------------------ *)

Module Breakdown.


(** The value stored under a name, [0] when there is none. *)
Definition valueAt (obj : JsObject.t number) (key : string) : number :=
  match JsObject.get obj key with
  | Some v => v
  | None => zero
  end.

(** The transactions of a list filed under a category. *)
Definition ofCategory (category : string) (l : list Transaction.t)
  : list Transaction.t :=
  filter (fun t => String.eqb (Transaction.category t) category) l.

(** The names every object inherits from [Object.prototype].  Reading one
    of them from an object that has no property of that name gives the
    inherited member and not [undefined], so the category objects behave
    as modelled only for other names. *)
Definition Object_prototype_names : list string :=
  ["constructor"; "__proto__"; "hasOwnProperty"; "isPrototypeOf";
   "propertyIsEnumerable"; "toLocaleString"; "toString"; "valueOf";
   "__defineGetter__"; "__defineSetter__"; "__lookupGetter__";
   "__lookupSetter__"]%string.

Definition inherited (name : string) : bool :=
  existsb (String.eqb name) Object_prototype_names.

(** No transaction of the list is filed under an inherited name. *)
Definition plainCategories (l : list Transaction.t) : Prop :=
  Forall (fun t => inherited (Transaction.category t) = false) l.

(** Every amount of the list is a finite number. *)
Definition finiteAmounts (l : list Transaction.t) : Prop :=
  Forall (fun t => is_finite (Transaction.amount t) = true) l.

(** Every value of the category object is a finite number. *)
Definition finite_values (obj : JsObject.t number) : Prop :=
  Forall (fun e => is_finite (snd e) = true) obj.

End Breakdown.

(* ------------------------------------------------------------------ *)
(** ** A reader for the exported text *)
(* ------------------------------------------------------------------ *)

(** The page only writes CSV.  To state that what it writes can be read
    back, this is the reader of the quoting convention the page writes in
    (RFC 4180): fields are separated by commas and records by newlines; a
    field that begins with a double quote runs to the closing double
    quote, and two double quotes inside it stand for one. *)
Module CsvReader.









End CsvReader.

(* ------------------------------------------------------------------ *)
(** ** Sample data *)
(* ------------------------------------------------------------------ *)

Definition sample_bill (status : BillStatus) (due : Z) : Bill.t :=
  Bill.mk "b1" "u1" "Electricity" (Fin 1200) due status "utilities" false
          "2025-01-01T00:00:00Z".

(** 2025-01-15, 12:00 UTC; day 20103 is 2025-01-15. *)
Definition sample_now : Z := 20103 * msPerDay + 43200000.

(** Indian Standard Time, five and a half hours east of UTC. *)
Definition tz_IST : Z := 19800000.

(** US Eastern Standard Time, five hours west of UTC. *)
Definition tz_EST : Z := -18000000.

Definition sample_db_bills : Store.Database :=
  Store.mkDatabase [] []
    [sample_bill Pending 20102; sample_bill Pending 20110; sample_bill Paid 20001]
    [].

(** A goal with nothing to reach and nothing saved. *)
Definition sample_goal_zero : Goal.t :=
  Goal.mk "g0" "u1" "Placeholder" (Fin 0) (Fin 0) None "general" EmptyString
          "2025-01-01T00:00:00Z" "2025-01-01T00:00:00Z".

Definition sample_goal : Goal.t :=
  Goal.mk "g1" "u1" "Retirement" (Fin 1000) (Fin 250) None "retirement"
          EmptyString "2025-01-01T00:00:00Z" "2025-01-01T00:00:00Z".

Definition sample_investment : Investment.t :=
  Investment.mk "i1" "u1" "Index fund" "stocks" (Fin 500) (Fin 650) 20000
                (Some "g1"%string) "2025-01-02T00:00:00Z" "2025-01-02T00:00:00Z".

Definition sample_db_goals : Store.Database :=
  Store.mkDatabase [sample_goal; sample_goal_zero] [] [] [sample_investment].

(** An income transaction of amount zero. *)
Definition sample_zero_income : Transaction.t :=
  Transaction.mk "t0" "u1" Income (Fin 0) "gift" "voucher" 20103
                 "2025-01-15T10:00:00Z".


Definition sample_form : Transactions.FormData :=
  Transactions.mkForm Expense "250" "food" "lunch" "15-01-2025".

Definition empty_db : Store.Database := Store.mkDatabase [] [] [] [].

Definition dq : string := String ExportData.dquote EmptyString.

(** The text [rent, "main" flat]. *)
Definition sample_text : string :=
  ("rent, " ++ dq ++ "main" ++ dq ++ " flat")%string.

(** The same text between double quotes, its own double quotes doubled. *)
Definition sample_text_field : string :=
  (dq ++ "rent, " ++ dq ++ dq ++ "main" ++ dq ++ dq ++ " flat" ++ dq)%string.

(** Salary on 2025-02-01, rent on 2025-01-20, food on 2025-02-03. *)
Definition sample_transactions : list Transaction.t :=
  [ Transaction.mk "t1" "u1" Income (Fin 1000) "salary" "pay" 20120
                   "2025-02-01T09:00:00Z";
    Transaction.mk "t2" "u1" Expense (Fin 400) "rent" "flat" 20108
                   "2025-02-01T09:05:00Z";
    Transaction.mk "t3" "u1" Expense (Fin 100) "food" "market" 20122
                   "2025-02-03T18:00:00Z" ].

(** Three bills of one user and one of another user. *)
Definition sample_bills_db : Store.Database :=
  Store.mkDatabase [] []
    [ Bill.mk "b1" "u1" "Electricity" (Fin 1200) 20102 Pending "utilities" false
              "2025-01-01T00:00:00Z";
      Bill.mk "b2" "u1" "Rent" (Fin 9000) 20110 Pending "rent" true
              "2025-01-01T00:00:00Z";
      Bill.mk "b3" "u2" "Insurance" (Fin 700) 20090 Overdue "insurance" false
              "2025-01-01T00:00:00Z" ]
    [].


(** A goal form without a deadline. *)
Definition sample_goal_form : GoalsPage.FormData :=
  GoalsPage.mkForm "Emergency fund" "5000" "1200" EmptyString "emergency"
                   "six months of rent".


(** The first row of the expense breakdown of the sample transactions: the
    rent, 400 of 500. *)
Definition sample_rent_row : CategoryData.t :=
  Eval vm_compute in
    hd (CategoryData.mk EmptyString zero zero)
       (VisualAnalysis.categoryBreakdown Expense sample_transactions).




(* ================================================================== *)
(** * Properties *)
(* ================================================================== *)


(* ------------------------------------------------------------------ *)
(** ** Arithmetic of the number model *)
(* ------------------------------------------------------------------ *)

Lemma num_eq_refl (a : number) : (a === a)%js.
Proof. destruct a; simpl; auto with qarith. Qed.

Lemma num_eq_sym (a b : number) : (a === b)%js -> (b === a)%js.
Proof. destruct a, b; simpl; auto with qarith. Qed.

Lemma num_eq_trans (a b c : number) :
  (a === b)%js -> (b === c)%js -> (a === c)%js.
Proof.
  destruct a, b, c; simpl; try tauto.
  intros H1 H2. now rewrite H1.
Qed.

#[global] Instance num_eq_Equivalence : Equivalence num_eq.
Proof.
  split.
  - exact num_eq_refl.
  - exact num_eq_sym.
  - exact num_eq_trans.
Qed.

#[global] Instance add_Proper : Proper (num_eq ==> num_eq ==> num_eq) add.
Proof.
  intros a a' Ha b b' Hb.
  destruct a, a', b, b'; simpl in *; try tauto.
  now rewrite Ha, Hb.
Qed.

#[global] Instance neg_Proper : Proper (num_eq ==> num_eq) neg.
Proof.
  intros a a' Ha. destruct a, a'; simpl in *; try tauto.
  now rewrite Ha.
Qed.

#[global] Instance sub_Proper : Proper (num_eq ==> num_eq ==> num_eq) sub.
Proof.
  intros a a' Ha b b' Hb. unfold sub. now rewrite Ha, Hb.
Qed.

Lemma add_assoc (a b c : number) : (a + b + c === a + (b + c))%js.
Proof.
  destruct a, b, c; simpl; try exact I.
  ring.
Qed.

Lemma add_zero_r (a : number) : (a + zero === a)%js.
Proof. destruct a; simpl; try exact I. ring. Qed.

Lemma add_zero_l (a : number) : (zero + a === a)%js.
Proof. destruct a; simpl; try exact I. ring. Qed.

(** A [reduce] that adds [f] of every element to the accumulator computes
    the accumulator plus the sum of [f] over the list. *)
Lemma reduce_add_sum_of {A : Type} (f : A -> number) (l : list A) (a : number) :
  (fold_left (fun sum x => sum + Number (f x)) l a === a + Spec.sum_of f l)%js.
Proof.
  revert a. induction l as [|x l IH]; intros a; simpl.
  - symmetry. apply add_zero_r.
  - rewrite IH. unfold Number. apply add_assoc.
Qed.

Lemma totalOfType_totalByType (ty : TxType) (transactions : list Transaction.t) :
  (Dashboard.totalOfType ty transactions === Spec.totalByType transactions ty)%js.
Proof.
  unfold Dashboard.totalOfType, Spec.totalByType.
  rewrite (reduce_add_sum_of Transaction.amount). apply add_zero_l.
Qed.

Lemma sumCurrentValue_sum_of (investments : list Investment.t) :
  (Dashboard.sumCurrentValue investments
   === Spec.sum_of Investment.current_value investments)%js.
Proof.
  unfold Dashboard.sumCurrentValue.
  rewrite (reduce_add_sum_of Investment.current_value). apply add_zero_l.
Qed.

(* ------------------------------------------------------------------ *)
(** ** Dates *)
(* ------------------------------------------------------------------ *)

(** East of Greenwich (offset below one day), midnight UTC of a day lies
    before local midnight of today exactly when the day is before today's
    local calendar day. *)
Lemma dateonly_before_today (tz now day : Z) :
  0 <= tz < msPerDay ->
  (Date_of_dateonly day <? setHours0 tz now) = (day <? localDay tz now).
Proof.
  intros Htz. unfold Date_of_dateonly, setHours0, msPerDay in *.
  set (L := localDay tz now).
  destruct (Z.ltb_spec day L) as [Hlt|Hge].
  - apply Z.ltb_lt. nia.
  - apply Z.ltb_ge. nia.
Qed.

(** East of Greenwich, the local calendar day of midnight UTC of a day is
    that day. *)
Lemma localDay_dateonly (tz day : Z) :
  0 <= tz < msPerDay -> localDay tz (Date_of_dateonly day) = day.
Proof.
  intros Htz. unfold localDay, Date_of_dateonly.
  assert (Hpos : 0 < msPerDay) by (unfold msPerDay; lia).
  rewrite Z.add_comm, Z.div_add by lia.
  rewrite Z.div_small by lia. lia.
Qed.

(* ------------------------------------------------------------------ *)
(** ** Bill status *)
(* ------------------------------------------------------------------ *)

Lemma BillStatus_eqb_eq (a b : BillStatus) : BillStatus_eqb a b = true <-> a = b.
Proof. destruct a, b; simpl; split; intros H; try reflexivity; discriminate. Qed.

(** C1. A bill whose stored status is paid is displayed as paid, for every
    clock reading, time zone and due date: the mapping of [loadBills]
    returns the bill itself. *)
Theorem paid_bill_stays_paid (tz now : Z) (bill : Bill.t) :
  Bill.status bill = Paid ->
  Bills.billWithStatus tz now bill = bill
  /\ Bills.effectiveStatus tz now bill = Paid.
Proof.
  intros Hpaid. unfold Bills.effectiveStatus, Bills.billWithStatus.
  rewrite Hpaid. simpl. split; [reflexivity | exact Hpaid].
Qed.

Lemma paid_bill_stays_paid_witness :
  Bill.status (sample_bill Paid 20000) = Paid
  /\ Bills.effectiveStatus 0 sample_now (sample_bill Paid 20000) = Paid.
Proof.
  split; [reflexivity|].
  apply (paid_bill_stays_paid 0 sample_now (sample_bill Paid 20000)).
  reflexivity.
Defined.

(** C3, as stated, fails: a bill stored as overdue whose due date is
    tomorrow is not paid and not due before today, yet it is displayed as
    overdue and not as pending. *)
Lemma stored_overdue_not_reset_to_pending :
  let bill := sample_bill Overdue 20104 in
  Bill.status bill <> Paid
  /\ (Bill.due_date bill <? localDay 0 sample_now) = false
  /\ Bills.effectiveStatus 0 sample_now bill = Overdue
  /\ Bills.effectiveStatus 0 sample_now bill <> Pending.
Proof.
  simpl. repeat split; try discriminate; reflexivity.
Qed.

(** C3, amended.  For a bill that is not stored as paid, in a time zone
    at or east of UTC: the displayed status is overdue when the due day is
    strictly before today's calendar day, and the stored status otherwise
    (pending stays pending, a stored overdue stays overdue); a pending
    bill due yesterday is displayed as overdue. *)
Theorem unpaid_bill_effective_status (tz now : Z) (bill : Bill.t) :
  0 <= tz < msPerDay ->
  Bill.status bill <> Paid ->
  Bills.effectiveStatus tz now bill
  = (if Bill.due_date bill <? localDay tz now then Overdue else Bill.status bill)
  /\ (Bill.status bill = Pending ->
      (Bills.effectiveStatus tz now bill = Overdue
       <-> Bill.due_date bill < localDay tz now))
  /\ (Bill.due_date bill = localDay tz now - 1 ->
      Bills.effectiveStatus tz now bill = Overdue).
Proof.
  intros Htz Hunpaid.
  assert (Heq : Bills.effectiveStatus tz now bill
                = (if Bill.due_date bill <? localDay tz now
                   then Overdue else Bill.status bill)).
  { unfold Bills.effectiveStatus, Bills.billWithStatus.
    destruct (BillStatus_eqb (Bill.status bill) Paid) eqn:E.
    - apply BillStatus_eqb_eq in E. contradiction.
    - simpl. rewrite (dateonly_before_today tz now _ Htz).
      destruct (Bill.due_date bill <? localDay tz now); reflexivity. }
  split; [exact Heq|]. split.
  - intros Hpending. rewrite Heq, Hpending.
    destruct (Z.ltb_spec (Bill.due_date bill) (localDay tz now)); split;
      intros H'; try reflexivity; try assumption; try discriminate; lia.
  - intros Hy. rewrite Heq.
    destruct (Z.ltb_spec (Bill.due_date bill) (localDay tz now)); [reflexivity|lia].
Qed.

Lemma unpaid_bill_effective_status_witness :
  (0 <= tz_IST < msPerDay)
  /\ Bill.status (sample_bill Pending 20102) <> Paid
  /\ Bills.effectiveStatus tz_IST sample_now (sample_bill Pending 20102) = Overdue.
Proof.
  assert (Htz : 0 <= tz_IST < msPerDay) by (unfold tz_IST, msPerDay; lia).
  assert (Hs : Bill.status (sample_bill Pending 20102) <> Paid) by discriminate.
  split; [exact Htz|]. split; [exact Hs|].
  apply (unpaid_bill_effective_status tz_IST sample_now
           (sample_bill Pending 20102) Htz Hs).
  reflexivity.
Defined.

(* ------------------------------------------------------------------ *)
(** ** Dashboard counters *)
(* ------------------------------------------------------------------ *)

(** Every bill stored as pending is either still pending on the Bills page
    or was turned into an overdue bill there. *)
Lemma pending_split (tz now : Z) (data : list Bill.t) :
  List.length (filter (fun b => BillStatus_eqb (Bill.status b) Pending) data)
  = Nat.add
      (List.length (Bills.pendingBills (Bills.billsWithStatus tz now data)))
      (List.length
         (filter (fun b => BillStatus_eqb (Bill.status b) Pending
                           && (Date_of_dateonly (Bill.due_date b)
                               <? setHours0 tz now))
                 data)).
Proof.
  unfold Bills.pendingBills, Bills.billsOfStatus, Bills.billsWithStatus.
  induction data as [|b data IH]; [reflexivity|].
  simpl. unfold Bills.billWithStatus at 1.
  destruct (Bill.status b) eqn:Hs; simpl.
  - rewrite Hs. simpl. exact IH.
  - destruct (Date_of_dateonly (Bill.due_date b) <? setHours0 tz now); simpl.
    + rewrite IH. lia.
    + rewrite Hs. simpl. rewrite IH. reflexivity.
  - destruct (Date_of_dateonly (Bill.due_date b) <? setHours0 tz now); simpl.
    + exact IH.
    + rewrite Hs. simpl. exact IH.
Qed.

(** C10. The Dashboard's pending counter is the number of the user's bills
    stored as pending; no due-date derivation enters it.  It therefore
    exceeds the pending count of the Bills page by the number of pending
    bills whose due date has passed, and such a bill is counted as pending
    by the Dashboard while the Bills page shows it as overdue. *)
Theorem dashboard_pending_is_stored_pending
        (uid : string) (db : Store.Database) (tz now : Z) :
  Dashboard.pendingBills (Dashboard.loadDashboardData uid db)
  = List.length (filter (fun b => BillStatus_eqb (Bill.status b) Pending)
                        (Store.select_bills uid db))
  /\ Dashboard.pendingBills (Dashboard.loadDashboardData uid db)
     = Nat.add
         (List.length (Bills.pendingBills
                         (Bills.billsWithStatus tz now (Store.select_bills uid db))))
         (List.length
            (filter (fun b => BillStatus_eqb (Bill.status b) Pending
                              && (Date_of_dateonly (Bill.due_date b)
                                  <? setHours0 tz now))
                    (Store.select_bills uid db)))
  /\ (forall b : Bill.t,
        In b (Store.bills db) ->
        Bill.user_id b = uid ->
        Bill.status b = Pending ->
        Date_of_dateonly (Bill.due_date b) < setHours0 tz now ->
        In b (Store.select_bills_with_status uid Pending db)
        /\ Bills.effectiveStatus tz now b = Overdue).
Proof.
  split; [reflexivity|]. split.
  - unfold Dashboard.loadDashboardData, Dashboard.stats. simpl.
    unfold Store.select_bills_with_status. apply pending_split.
  - intros b Hin Huser Hpending Hdue. split.
    + unfold Store.select_bills_with_status, Store.select_bills.
      apply filter_In. split.
      * apply filter_In. split; [exact Hin|]. now apply String.eqb_eq.
      * rewrite Hpending. reflexivity.
    + unfold Bills.effectiveStatus, Bills.billWithStatus.
      rewrite Hpending. simpl.
      apply Z.ltb_lt in Hdue. rewrite Hdue. reflexivity.
Qed.

Example dashboard_counts_overdue_bill_as_pending :
  Dashboard.pendingBills (Dashboard.loadDashboardData "u1" sample_db_bills) = 2%nat
  /\ List.length (Bills.pendingBills
                    (Bills.billsWithStatus tz_IST sample_now
                       (Store.select_bills "u1" sample_db_bills))) = 1%nat.
Proof. split; reflexivity. Qed.

(* ------------------------------------------------------------------ *)
(** ** Net worth *)
(* ------------------------------------------------------------------ *)

(** C5. The net worth computed by the Dashboard and by the application
    shell is the sum of the income amounts minus the sum of the expense
    amounts plus the sum of the investments' current values; without
    investments it is the income total minus the expense total. *)
Theorem netWorth_is_income_minus_expense_plus_investments
        (transactions : list Transaction.t) (goals : list Goal.t)
        (bills : list Bill.t) (investments : list Investment.t) :
  (Dashboard.netWorth (Dashboard.stats transactions goals bills investments)
   === Spec.netWorth transactions investments)%js
  /\ (App.netWorthOf transactions investments
      === Spec.netWorth transactions investments)%js
  /\ (Dashboard.netWorth (Dashboard.stats transactions goals bills [])
      === Spec.totalByType transactions Income
          - Spec.totalByType transactions Expense)%js
  /\ (App.netWorthOf transactions []
      === Spec.totalByType transactions Income
          - Spec.totalByType transactions Expense)%js.
Proof.
  assert (H : forall invs,
             (Dashboard.totalOfType Income transactions
              - Dashboard.totalOfType Expense transactions
              + Dashboard.sumCurrentValue invs
              === Spec.netWorth transactions invs)%js).
  { intros invs. unfold Spec.netWorth.
    now rewrite !totalOfType_totalByType, sumCurrentValue_sum_of. }
  assert (H0 : (Dashboard.totalOfType Income transactions
                - Dashboard.totalOfType Expense transactions
                + Dashboard.sumCurrentValue []
                === Spec.totalByType transactions Income
                    - Spec.totalByType transactions Expense)%js).
  { rewrite !totalOfType_totalByType. apply add_zero_r. }
  repeat split; simpl; unfold App.netWorthOf; auto.
Qed.

(** The design document's scenario: income 1000, expenses 400 and 100. *)
Example scenario_totals :
  Dashboard.totalOfType Income sample_transactions = Fin (0 + 1000)
  /\ Dashboard.totalOfType Expense sample_transactions = Fin (0 + 400 + 100)
  /\ (App.netWorthOf sample_transactions [] === Fin 500)%js
  /\ (App.netWorthOf sample_transactions [sample_investment] === Fin 1150)%js.
Proof. repeat split. Qed.

Example scenario_expense_breakdown :
  map CategoryData.category
      (VisualAnalysis.categoryBreakdown Expense sample_transactions)
  = ["rent"; "food"]%string
  /\ Forall2 (fun row pct => (CategoryData.percentage row === pct)%js)
             (VisualAnalysis.categoryBreakdown Expense sample_transactions)
             [Fin 80; Fin 20].
Proof. split; [reflexivity|]. repeat constructor. Qed.

(* ------------------------------------------------------------------ *)
(** ** Division by a zero total *)
(* ------------------------------------------------------------------ *)

Lemma num_eq_zero_inv (t : number) :
  (t === zero)%js -> exists q, t = Fin q /\ Qis_zero q = true.
Proof.
  destruct t as [q| | |]; simpl; try tauto.
  intros H. exists q. split; [reflexivity|].
  unfold Qis_zero. now apply Qeq_bool_iff.
Qed.

Lemma flip_times_hundred (b : bool) : (flip b * hundred)%js = flip b.
Proof. now destruct b. Qed.

(** [a / t * 100] is never a finite number when [t] is zero. *)
Lemma percentage_of_zero_total (a t : number) :
  (t === zero)%js -> is_finite ((a / t) * hundred)%js = false.
Proof.
  intros Ht. destruct (num_eq_zero_inv t Ht) as [q [-> Hq]].
  destruct a as [p| | |]; simpl; rewrite ?Hq.
  - destruct (Qis_zero p); [reflexivity|].
    rewrite flip_times_hundred. now destruct (negb (Qis_neg p)).
  - rewrite flip_times_hundred. now destruct (negb (Qis_neg q)).
  - rewrite flip_times_hundred. now destruct (Qis_neg q).
  - reflexivity.
Qed.

Lemma zero_over_zero (a t : number) :
  (a === zero)%js -> (t === zero)%js -> ((a / t) * hundred)%js = NaN.
Proof.
  intros Ha Ht.
  destruct (num_eq_zero_inv a Ha) as [p [-> Hp]].
  destruct (num_eq_zero_inv t Ht) as [q [-> Hq]].
  simpl. now rewrite Hq, Hp.
Qed.

(** C2.  For a goal whose target amount is zero the progress computed by
    the goal card is not a finite number, hence not 0: it is [NaN] when the
    current amount is zero too, and the card then shows the text [NaN%]
    and gives the bar the width [NaN]. *)
Theorem zero_target_progress_is_not_a_number
        (render_finite : nat -> Q -> string) (goal : Goal.t) :
  (Goal.target_amount goal === zero)%js ->
  is_finite (InvestmentGoals.progress goal) = false
  /\ ((Goal.current_amount goal === zero)%js ->
      InvestmentGoals.progress goal = NaN
      /\ InvestmentGoals.progressLabel render_finite goal = "NaN%"%string
      /\ InvestmentGoals.progressBarWidth goal = NaN).
Proof.
  intros Ht. split.
  - apply percentage_of_zero_total. exact Ht.
  - intros Hc.
    assert (Hp : InvestmentGoals.progress goal = NaN)
      by (apply zero_over_zero; assumption).
    unfold InvestmentGoals.progressLabel, InvestmentGoals.progressBarWidth.
    rewrite Hp. repeat split.
Qed.

Lemma zero_target_progress_is_not_a_number_witness :
  (Goal.target_amount sample_goal_zero === zero)%js
  /\ InvestmentGoals.progress sample_goal_zero = NaN
  /\ InvestmentGoals.progressLabel (fun _ _ => EmptyString) sample_goal_zero
     = "NaN%"%string.
Proof.
  assert (Hz : (Goal.target_amount sample_goal_zero === zero)%js)
    by (simpl; reflexivity).
  split; [exact Hz|].
  destruct (zero_target_progress_is_not_a_number
              (fun _ _ => EmptyString) sample_goal_zero Hz) as [_ H].
  destruct (H Hz) as [H1 [H2 _]]. split; assumption.
Defined.

(** The summary bar of the same page guards the same division: without a
    positive total target its width is zero. *)
Lemma summaryBarWidth_guarded (goals : list Goal.t) :
  gtb (InvestmentGoals.totalTargetCap goals) zero = false ->
  InvestmentGoals.summaryBarWidth goals = zero.
Proof.
  intros H. unfold InvestmentGoals.summaryBarWidth. now rewrite H.
Qed.

Example summaryBarWidth_zero_target :
  InvestmentGoals.summaryBarWidth [sample_goal_zero] = zero.
Proof. reflexivity. Qed.

(* ------------------------------------------------------------------ *)
(** ** Category breakdown *)
(* ------------------------------------------------------------------ *)

Lemma In_sort_insert {A : Type} (cmp : A -> A -> number) (x y : A) (l : list A) :
  In x (VisualAnalysis.sort_insert cmp y l) <-> x = y \/ In x l.
Proof.
  induction l as [|z l IH]; cbn [VisualAnalysis.sort_insert].
  - simpl. split; intros [H|H]; subst; auto.
  - destruct (gtb (cmp y z) zero); cbn [In]; rewrite ?IH.
    + split; intros H; decompose [or] H; subst; auto.
    + split; intros H; decompose [or] H; subst; auto.
Qed.

(** Sorting neither adds nor drops rows. *)
Lemma In_Array_sort {A : Type} (cmp : A -> A -> number) (x : A) (l : list A) :
  In x (VisualAnalysis.Array_sort cmp l) <-> In x l.
Proof.
  unfold VisualAnalysis.Array_sort.
  induction l as [|y l IH]; simpl; [tauto|].
  rewrite In_sort_insert, IH. intuition.
Qed.

(** Every row of the breakdown carries the quotient of its own amount and
    the total of its type, times one hundred. *)
Lemma categoryBreakdown_percentage (ty : TxType)
      (transactions : list Transaction.t) (row : CategoryData.t) :
  In row (VisualAnalysis.categoryBreakdown ty transactions) ->
  CategoryData.percentage row
  = ((CategoryData.amount row
      / VisualAnalysis.total (VisualAnalysis.transactionsOfType ty transactions))
     * hundred)%js.
Proof.
  unfold VisualAnalysis.categoryBreakdown, VisualAnalysis.categoryData.
  rewrite In_Array_sort, in_map_iff.
  intros [e [<- _]]. reflexivity.
Qed.

(** C4.  When the total of a type is zero, no row of the category
    breakdown of that type has a finite percentage, so none has 0%; a row
    whose own amount is zero has the percentage [NaN]. *)
Theorem zero_total_percentage_is_not_a_number
        (ty : TxType) (transactions : list Transaction.t) :
  (VisualAnalysis.total (VisualAnalysis.transactionsOfType ty transactions)
   === zero)%js ->
  forall row : CategoryData.t,
    In row (VisualAnalysis.categoryBreakdown ty transactions) ->
    is_finite (CategoryData.percentage row) = false
    /\ ((CategoryData.amount row === zero)%js ->
        CategoryData.percentage row = NaN).
Proof.
  intros Htotal row Hin.
  rewrite (categoryBreakdown_percentage ty transactions row Hin). split.
  - now apply percentage_of_zero_total.
  - intros Ha. now apply zero_over_zero.
Qed.

Lemma zero_total_percentage_is_not_a_number_witness :
  (VisualAnalysis.total
     (VisualAnalysis.transactionsOfType Income [sample_zero_income]) === zero)%js
  /\ VisualAnalysis.categoryBreakdown Income [sample_zero_income]
     = [CategoryData.mk "gift" (Fin (0 + 0)) NaN]
  /\ Forall (fun row => is_finite (CategoryData.percentage row) = false)
            (VisualAnalysis.categoryBreakdown Income [sample_zero_income]).
Proof.
  assert (Hz : (VisualAnalysis.total
                  (VisualAnalysis.transactionsOfType Income [sample_zero_income])
                === zero)%js) by (simpl; reflexivity).
  split; [exact Hz|]. split; [reflexivity|].
  apply Forall_forall. intros row Hin.
  apply (zero_total_percentage_is_not_a_number Income [sample_zero_income] Hz row Hin).
Defined.

(* ------------------------------------------------------------------ *)
(** ** Deleting a goal *)
(* ------------------------------------------------------------------ *)




(** An investment that is not linked to the deleted goal is left as it
    is. *)
Lemma deleteGoal_unlinked_investment
      (uid id : string) (db : Store.Database) (i : Investment.t) :
  In i (Store.investments db) ->
  Investment.goal_id i <> Some id ->
  In i (Store.investments (InvestmentGoals.deleteGoal uid id true db)).
Proof.
  intros Hi Hlink. simpl. apply in_map_iff. exists i. split; [|exact Hi].
  unfold Store.on_delete_set_null, Store.references_deleted.
  destruct (Investment.goal_id i) as [g|] eqn:Hg; [|reflexivity].
  assert (Hex : existsb (fun x => Store.goal_deleted uid id x
                                  && String.eqb (Goal.id x) g)
                        (Store.goals db) = false).
  { apply not_true_is_false. intros H. apply existsb_exists in H.
    destruct H as [x [_ H]]. apply andb_true_iff in H. destruct H as [H1 H2].
    unfold Store.goal_deleted in H1. apply andb_true_iff in H1.
    destruct H1 as [H1 _]. apply String.eqb_eq in H1, H2.
    apply Hlink. congruence. }
  rewrite Hex. reflexivity.
Qed.

(* ------------------------------------------------------------------ *)
(** ** CSV fields *)
(* ------------------------------------------------------------------ *)

Lemma includes_existsb (s : string) (c : ascii) :
  ExportData.includes s c
  = existsb (fun x => Ascii.eqb x c) (list_ascii_of_string s).
Proof.
  induction s as [|x s IH]; simpl; [reflexivity|]. now rewrite IH.
Qed.

Lemma existsb_orb {A : Type} (f g : A -> bool) (l : list A) :
  existsb (fun x => f x || g x) l = existsb f l || existsb g l.
Proof.
  induction l as [|x l IH]; simpl; [reflexivity|].
  rewrite IH. destruct (f x), (g x), (existsb f l); reflexivity.
Qed.

(** The test made by the export is the test for a comma, a double quote or
    a newline anywhere in the text. *)
Lemma includes_special (s : string) :
  ExportData.includes s ExportData.comma
  || ExportData.includes s ExportData.dquote
  || ExportData.includes s ExportData.newline
  = Spec.contains_special s.
Proof.
  unfold Spec.contains_special. rewrite !includes_existsb, !existsb_orb.
  reflexivity.
Qed.

Lemma split_not_nil (sep : ascii) (s : string) : Transactions.split sep s <> [].
Proof.
  destruct s as [|c s]; simpl; [discriminate|].
  destruct (Ascii.eqb c sep); [discriminate|].
  destruct (Transactions.split sep s); discriminate.
Qed.

(** Replacing every double quote by two of them is joining the pieces
    between the double quotes by two double quotes. *)
Lemma double_quotes_concat_split (s : string) :
  ExportData.double_quotes s
  = String.concat (String ExportData.dquote (String ExportData.dquote EmptyString))
                  (Transactions.split ExportData.dquote s).
Proof.
  induction s as [|c s IH]; [reflexivity|].
  cbn [ExportData.double_quotes Transactions.split].
  destruct (Ascii.eqb c ExportData.dquote) eqn:E.
  - rewrite IH.
    destruct (Transactions.split ExportData.dquote s) as [|p ps] eqn:Hs.
    + now apply split_not_nil in Hs.
    + reflexivity.
  - rewrite IH.
    destruct (Transactions.split ExportData.dquote s) as [|p ps] eqn:Hs.
    + now apply split_not_nil in Hs.
    + destruct ps; reflexivity.
Qed.

(** C7.  A field of the CSV export renders null and missing values as the
    empty text; a text with a comma, a double quote or a newline between
    double quotes with every double quote inside doubled; and every other
    value verbatim as its text form: texts without those characters,
    booleans, and every value whose text form has none of them (the text
    form of a number is the engine's). *)
Theorem csvField_rendering
        (Number_toString : number -> string) (value : ExportData.JsValue) :
  (value = ExportData.VNull \/ value = ExportData.VUndefined ->
   ExportData.csvField Number_toString value = EmptyString)
  /\ (forall (row : JsObject.t ExportData.JsValue) (header : string),
        JsObject.get row header = None ->
        ExportData.csvField Number_toString (ExportData.field row header)
        = EmptyString)
  /\ (forall s : string,
        value = ExportData.VString s ->
        Spec.contains_special s = true ->
        ExportData.csvField Number_toString value = Spec.quoted s)
  /\ (forall s : string,
        value = ExportData.VString s ->
        Spec.contains_special s = false ->
        ExportData.csvField Number_toString value = s)
  /\ (forall b : bool,
        value = ExportData.VBoolean b ->
        ExportData.csvField Number_toString value
        = ExportData.ToString Number_toString value)
  /\ (value <> ExportData.VNull ->
      value <> ExportData.VUndefined ->
      Spec.contains_special (ExportData.ToString Number_toString value) = false ->
      ExportData.csvField Number_toString value
      = ExportData.ToString Number_toString value).
Proof.
  repeat split.
  - intros [-> | ->]; reflexivity.
  - intros row header Hget. unfold ExportData.field. now rewrite Hget.
  - intros s -> Hs. unfold ExportData.csvField, Spec.quoted.
    cbn [ExportData.ToString]. rewrite includes_special, Hs.
    rewrite double_quotes_concat_split. reflexivity.
  - intros s -> Hs. unfold ExportData.csvField.
    cbn [ExportData.ToString]. now rewrite includes_special, Hs.
  - intros b ->. destruct b; reflexivity.
  - intros Hnull Hundef Hs. unfold ExportData.csvField.
    rewrite includes_special, Hs.
    destruct value; try reflexivity; contradiction.
Qed.

Example csvField_quotes_and_doubles :
  ExportData.csvField (fun _ => EmptyString) (ExportData.VString sample_text)
  = sample_text_field.
Proof. reflexivity. Qed.

(* ------------------------------------------------------------------ *)
(** ** Dates typed into the transaction form *)
(* ------------------------------------------------------------------ *)



(** A submission that succeeds stores the date the store read from the
    formatted text: every transaction of the new store is an old one or
    carries that date. *)
Lemma saved_transaction_has_parsed_date
      (parseFloat : string -> number) (date_in : string -> option Z)
      (uid new_id stamp : string) (editing : option Transaction.t)
      (formData : Transactions.FormData) (db db' : Store.Database) :
  Transactions.handleSubmit parseFloat date_in uid new_id stamp editing
                            formData db
  = (db', Transactions.Saved) ->
  exists d : Z,
    date_in (Transactions.formatDate (Transactions.date formData)) = Some d
    /\ forall t : Transaction.t,
         In t (Store.transactions db') ->
         In t (Store.transactions db) \/ Transaction.date t = d.
Proof.
  unfold Transactions.handleSubmit, Transactions.update, Transactions.insert.
  destruct (date_in (Transactions.formatDate (Transactions.date formData)))
    as [d|] eqn:Hd.
  - intros H. exists d. split; [reflexivity|]. intros t Hin.
    destruct editing as [e|];
      destruct (is_finite (parseFloat (Transactions.amount formData)));
      try discriminate; inversion H; subst db'; clear H; simpl in Hin.
    + apply in_map_iff in Hin. destruct Hin as [t0 [Ht0 Hin0]].
      destruct (String.eqb (Transaction.id t0) (Transaction.id e)
                && String.eqb (Transaction.user_id t0) uid).
      * right. now subst t.
      * left. now subst t.
    + apply in_app_or in Hin. destruct Hin as [Hin|[<-|[]]].
      * now left.
      * now right.
  - intros H. destruct editing as [e|];
      destruct (is_finite (parseFloat (Transactions.amount formData)));
      discriminate.
Qed.

Example valid_date_is_stored :
  Store.transactions
    (fst (Transactions.handleSubmit Transactions.parseFloat_digits
            Transactions.iso_date_in "u1" "t9" "2025-01-15T10:00:00Z" None
            sample_form empty_db))
  = [Transaction.mk "t9" "u1" Expense (Fin (inject_Z 250)) "food" "lunch" 20103
                    "2025-01-15T10:00:00Z"].
Proof. reflexivity. Qed.

(* ------------------------------------------------------------------ *)
(** ** Monthly series *)
(* ------------------------------------------------------------------ *)

Import Monthly.

(** No month label is an array index, so the labels are enumerated in
    creation order. *)
Lemma month_name_not_index (n : nat) (s : string) :
  JsObject.is_array_index (nth n shortMonths EmptyString ++ String " "%char s)
  = false.
Proof.
  do 12 (destruct n as [|n]; [reflexivity|]).
  destruct n; reflexivity.
Qed.

Lemma monthLabel_not_index (y m : Z) :
  JsObject.is_array_index (monthLabel y m) = false.
Proof. unfold monthLabel. apply month_name_not_index. Qed.

Lemma monthKey_not_index (tz : Z) (t : Transaction.t) :
  JsObject.is_array_index (monthKey tz t) = false.
Proof.
  unfold monthKey, toLocaleMonthYear.
  destruct (civil_from_days _) as [[y m] d]. apply monthLabel_not_index.
Qed.

Lemma filter_none {A : Type} (p : A -> bool) (l : list A) :
  (forall x, In x l -> p x = false) -> filter p l = [].
Proof.
  induction l as [|x l IH]; intros H; simpl; [reflexivity|].
  rewrite (H x (or_introl eq_refl)). apply IH. intros y Hy. apply H. now right.
Qed.

Lemma filter_all {A : Type} (p : A -> bool) (l : list A) :
  (forall x, In x l -> p x = true) -> filter p l = l.
Proof.
  induction l as [|x l IH]; intros H; simpl; [reflexivity|].
  rewrite (H x (or_introl eq_refl)). f_equal. apply IH.
  intros y Hy. apply H. now right.
Qed.

Lemma Object_entries_plain_names {V : Type} (obj : JsObject.t V) :
  (forall e, In e obj -> JsObject.is_array_index (fst e) = false) ->
  JsObject.Object_entries obj = obj.
Proof.
  intros H. unfold JsObject.Object_entries.
  rewrite filter_none by exact H.
  rewrite filter_all; [reflexivity|].
  intros e He. now rewrite (H e He).
Qed.

(** *** The object as an association list *)

Lemma has_keys {V : Type} (obj : JsObject.t V) (k : string) :
  JsObject.has obj k = existsb (String.eqb k) (keys obj).
Proof.
  unfold JsObject.has.
  induction obj as [|[k0 v] obj IH]; simpl; [reflexivity|].
  rewrite (String.eqb_sym k k0).
  destruct (String.eqb k0 k); [reflexivity|exact IH].
Qed.

Lemma absent_spec (ks : list string) (k : string) :
  absent ks k = true <-> ~ In k ks.
Proof.
  unfold absent. rewrite negb_true_iff. split.
  - intros H Hin.
    assert (Hex : existsb (String.eqb k) ks = true).
    { apply existsb_exists. exists k. split; [exact Hin|apply String.eqb_refl]. }
    congruence.
  - intros H. apply not_true_is_false. intros Hex.
    apply existsb_exists in Hex. destruct Hex as [x [Hx Hk]].
    apply String.eqb_eq in Hk. now subst x.
Qed.

Lemma set_new_key {V : Type} (obj : JsObject.t V) (k : string) (v : V) :
  ~ In k (keys obj) -> JsObject.set obj k v = obj ++ [(k, v)].
Proof.
  induction obj as [|[k0 w] obj IH]; simpl; intros H; [reflexivity|].
  destruct (String.eqb k0 k) eqn:E.
  - apply String.eqb_eq in E. tauto.
  - rewrite IH by tauto. reflexivity.
Qed.

Lemma update_last_key {V : Type} (obj : JsObject.t V) (k : string) (v : V)
      (f : V -> V) :
  ~ In k (keys obj) ->
  JsObject.update (obj ++ [(k, v)]) k f = obj ++ [(k, f v)].
Proof.
  induction obj as [|[k0 w] obj IH]; simpl; intros H.
  - now rewrite String.eqb_refl.
  - destruct (String.eqb k0 k) eqn:E.
    + apply String.eqb_eq in E. tauto.
    + rewrite IH by tauto. reflexivity.
Qed.

Lemma map_touch_other {V : Type} (obj : JsObject.t V) (k : string) (f : V -> V) :
  ~ In k (keys obj) -> map (touch k f) obj = obj.
Proof.
  induction obj as [|[k0 w] obj IH]; simpl; intros H; [reflexivity|].
  unfold touch at 1. simpl.
  destruct (String.eqb k0 k) eqn:E.
  - apply String.eqb_eq in E. tauto.
  - rewrite IH by tauto. reflexivity.
Qed.

Lemma update_as_map {V : Type} (obj : JsObject.t V) (k : string) (f : V -> V) :
  NoDup (keys obj) -> JsObject.update obj k f = map (touch k f) obj.
Proof.
  induction obj as [|[k0 w] obj IH]; simpl; intros Hnd; [reflexivity|].
  inversion Hnd as [|? ? Hnotin Hnd']; subst.
  unfold touch at 1. simpl.
  destruct (String.eqb k0 k) eqn:E.
  - apply String.eqb_eq in E. subst k0.
    now rewrite map_touch_other.
  - now rewrite IH.
Qed.

Lemma keys_map_touch {V : Type} (obj : JsObject.t V) (k : string) (f : V -> V) :
  keys (map (touch k f) obj) = keys obj.
Proof.
  unfold keys. rewrite map_map. apply map_ext.
  intros e. unfold touch. now destruct (String.eqb (fst e) k).
Qed.

Lemma filter_filter_and {A : Type} (p q : A -> bool) (l : list A) :
  filter p (filter q l) = filter (fun x => p x && q x) l.
Proof.
  induction l as [|x l IH]; simpl; [reflexivity|].
  destruct (q x); simpl; rewrite ?andb_true_r, ?andb_false_r.
  - destruct (p x); now rewrite IH.
  - exact IH.
Qed.

Lemma absent_app (ks : list string) (k x : string) :
  absent (ks ++ [k]) x = absent ks x && negb (String.eqb x k).
Proof.
  unfold absent. rewrite existsb_app. simpl. rewrite orb_false_r.
  now rewrite negb_orb.
Qed.

Lemma absent_neq (ks : list string) (k x : string) :
  In k ks -> absent ks x = true -> String.eqb x k = false.
Proof.
  intros Hin Habs. apply absent_spec in Habs.
  apply String.eqb_neq. intros ->. contradiction.
Qed.

Lemma monthTotals_cons (tz : Z) (label : string) (t : Transaction.t)
      (ts : list Transaction.t) (d : MonthData.t) :
  monthTotals tz label (t :: ts) d
  = monthTotals tz label ts
      (if String.eqb (monthKey tz t) label then bump t d else d).
Proof. reflexivity. Qed.

Lemma addToMonth_unfold (tz : Z) (obj : JsObject.t MonthData.t)
      (t : Transaction.t) :
  VisualAnalysis.addToMonth tz obj t
  = JsObject.update
      (if negb (JsObject.has obj (monthKey tz t))
       then JsObject.set obj (monthKey tz t) zero2
       else obj)
      (monthKey tz t) (bump t).
Proof.
  unfold VisualAnalysis.addToMonth, bump, monthKey, zero2.
  destruct (TxType_eqb (Transaction.type t) Income); reflexivity.
Qed.

(** A known month: the transaction is added to the totals already there. *)
Lemma addToMonth_known (tz : Z) (obj : JsObject.t MonthData.t)
      (t : Transaction.t) :
  NoDup (keys obj) ->
  In (monthKey tz t) (keys obj) ->
  VisualAnalysis.addToMonth tz obj t = map (touch (monthKey tz t) (bump t)) obj.
Proof.
  intros Hnd Hin. rewrite addToMonth_unfold, has_keys.
  assert (Hex : existsb (String.eqb (monthKey tz t)) (keys obj) = true).
  { apply existsb_exists. exists (monthKey tz t).
    split; [exact Hin|apply String.eqb_refl]. }
  rewrite Hex. simpl. now apply update_as_map.
Qed.

(** A new month: a property is created last, holding the transaction. *)
Lemma addToMonth_new (tz : Z) (obj : JsObject.t MonthData.t)
      (t : Transaction.t) :
  ~ In (monthKey tz t) (keys obj) ->
  VisualAnalysis.addToMonth tz obj t = obj ++ [(monthKey tz t, bump t zero2)].
Proof.
  intros Hnot. rewrite addToMonth_unfold, has_keys.
  assert (Hex : absent (keys obj) (monthKey tz t) = true)
    by now apply absent_spec.
  unfold absent in Hex. rewrite Hex.
  rewrite set_new_key by exact Hnot. now apply update_last_key.
Qed.

(** The object built by the loop, started from any object with distinct
    names: the old properties keep their place and receive the totals of
    their month, the new months follow in order of first occurrence. *)
Lemma monthly_fold (tz : Z) (ts : list Transaction.t) :
  forall obj : JsObject.t MonthData.t,
    NoDup (keys obj) ->
    fold_left (VisualAnalysis.addToMonth tz) ts obj
    = map (fun e => (fst e, monthTotals tz (fst e) ts (snd e))) obj
      ++ map (fun k => (k, monthTotals tz k ts zero2))
             (filter (absent (keys obj))
                     (Spec.first_occurrences String.eqb (map (monthKey tz) ts))).
Proof.
  induction ts as [|t ts IH]; intros obj Hnd.
  - simpl. rewrite app_nil_r.
    transitivity (map (fun e : string * MonthData.t => e) obj);
      [now rewrite map_id|].
    apply map_ext. now intros [k v].
  - cbn [fold_left map Spec.first_occurrences].
    set (k := monthKey tz t).
    destruct (in_dec string_dec k (keys obj)) as [Hin|Hnot].
    + rewrite (addToMonth_known tz obj t Hnd Hin). fold k.
      rewrite IH by (rewrite keys_map_touch; exact Hnd).
      rewrite keys_map_touch. cbn [filter].
      assert (Hk : absent (keys obj) k = false).
      { apply not_true_is_false. intros H. apply absent_spec in H. contradiction. }
      rewrite Hk. f_equal.
      * rewrite map_map. apply map_ext. intros e.
        rewrite monthTotals_cons. fold k. unfold touch.
        rewrite (String.eqb_sym k (fst e)).
        destruct (String.eqb (fst e) k); reflexivity.
      * rewrite filter_filter_and.
        rewrite (filter_ext (fun x => absent (keys obj) x && negb (String.eqb x k))
                            (absent (keys obj))).
        2:{ intros x. destruct (absent (keys obj) x) eqn:Hx; [|reflexivity].
            now rewrite (absent_neq (keys obj) k x Hin Hx). }
        apply map_ext_in. intros x Hx. apply filter_In in Hx.
        destruct Hx as [_ Hx]. rewrite monthTotals_cons. fold k.
        rewrite (String.eqb_sym k x), (absent_neq (keys obj) k x Hin Hx).
        reflexivity.
    + rewrite (addToMonth_new tz obj t Hnot). fold k.
      assert (Hnd' : NoDup (keys (obj ++ [(k, bump t zero2)]))).
      { unfold keys. rewrite map_app. simpl.
        apply NoDup_app; [exact Hnd|repeat constructor; intros []|].
        intros x Hx [<-|[]]. contradiction. }
      rewrite IH by exact Hnd'.
      rewrite map_app. cbn [map fst snd].
      assert (Hk : absent (keys obj) k = true) by now apply absent_spec.
      cbn [filter]. rewrite Hk. cbn [map].
      rewrite <- app_assoc. cbn [app]. f_equal.
      * apply map_ext_in. intros e He. rewrite monthTotals_cons. fold k.
        assert (Hne : String.eqb k (fst e) = false).
        { apply String.eqb_neq. intros Heq. apply Hnot. rewrite Heq.
          unfold keys. now apply in_map. }
        now rewrite Hne.
      * f_equal; [rewrite monthTotals_cons; fold k; now rewrite String.eqb_refl|].
        rewrite filter_filter_and.
        replace (keys (obj ++ [(k, bump t zero2)])) with (keys obj ++ [k])
          by (unfold keys; now rewrite map_app).
        rewrite (filter_ext (absent (keys obj ++ [k]))
                            (fun x => absent (keys obj) x && negb (String.eqb x k)))
          by (intros x; apply absent_app).
        apply map_ext_in. intros x Hx. apply filter_In in Hx.
        destruct Hx as [_ Hx]. apply andb_true_iff in Hx. destruct Hx as [_ Hx].
        rewrite monthTotals_cons. fold k.
        rewrite (String.eqb_sym k x). apply negb_true_iff in Hx. now rewrite Hx.
Qed.

Lemma monthlyMapOf_closed_form (tz : Z) (ts : list Transaction.t) :
  VisualAnalysis.monthlyMapOf tz ts
  = map (fun k => (k, monthTotals tz k ts zero2))
        (Spec.first_occurrences String.eqb (map (monthKey tz) ts)).
Proof.
  unfold VisualAnalysis.monthlyMapOf, JsObject.empty.
  rewrite monthly_fold by constructor. simpl.
  now rewrite filter_all.
Qed.

Lemma monthTotals_income (tz : Z) (label : string) (ts : list Transaction.t) :
  forall d : MonthData.t,
    MonthData.income (monthTotals tz label ts d)
    = fold_left (fun sum t => (sum + Number (Transaction.amount t))%js)
                (filed tz label Income ts) (MonthData.income d).
Proof.
  induction ts as [|t ts IH]; intros d; [reflexivity|].
  rewrite monthTotals_cons, IH. unfold filed. cbn [filter].
  destruct (String.eqb (monthKey tz t) label); [|reflexivity].
  unfold bump. destruct (Transaction.type t); reflexivity.
Qed.

Lemma monthTotals_expense (tz : Z) (label : string) (ts : list Transaction.t) :
  forall d : MonthData.t,
    MonthData.expense (monthTotals tz label ts d)
    = fold_left (fun sum t => (sum + Number (Transaction.amount t))%js)
                (filed tz label Expense ts) (MonthData.expense d).
Proof.
  induction ts as [|t ts IH]; intros d; [reflexivity|].
  rewrite monthTotals_cons, IH. unfold filed. cbn [filter].
  destruct (String.eqb (monthKey tz t) label); [|reflexivity].
  unfold bump. destruct (Transaction.type t); reflexivity.
Qed.

Lemma In_first_occurrences {A : Type} (eqb : A -> A -> bool) (x : A)
      (l : list A) :
  In x (Spec.first_occurrences eqb l) -> In x l.
Proof.
  induction l as [|k l IH]; simpl; [tauto|].
  intros [H|H]; [now left|]. apply filter_In in H. right. now apply IH.
Qed.

(** In every time zone: one row per key, in order of the first occurrence
    of the key, with the sums of the income and the expense transactions
    filed under the key. *)
Lemma monthlySeries_by_key (tz : Z) (ts : list Transaction.t) :
  VisualAnalysis.monthlySeries tz ts
  = map (fun k => MonthRow.mk k
                    (VisualAnalysis.total (filed tz k Income ts))
                    (VisualAnalysis.total (filed tz k Expense ts)))
        (Spec.first_occurrences String.eqb (map (monthKey tz) ts)).
Proof.
  unfold VisualAnalysis.monthlySeries.
  rewrite Object_entries_plain_names.
  - rewrite monthlyMapOf_closed_form, map_map. apply map_ext. intros k.
    cbn [fst snd]. now rewrite monthTotals_income, monthTotals_expense.
  - intros e He. rewrite monthlyMapOf_closed_form in He.
    apply in_map_iff in He. destruct He as [k [<- Hk]]. cbn [fst].
    apply In_first_occurrences, in_map_iff in Hk.
    destruct Hk as [t [<- _]]. apply monthKey_not_index.
Qed.

(** *** Labels and calendar months *)

Lemma all_from_spec (P : Z -> bool) (n : nat) :
  forall z : Z,
    all_from P n z = true ->
    forall k : Z, z <= k < z + Z.of_nat n -> P k = true.
Proof.
  induction n as [|n IH]; intros z H k Hk; [lia|].
  cbn [all_from] in H. apply andb_true_iff in H. destruct H as [Hz Hrest].
  destruct (Z.eq_dec k z) as [->|Hne]; [exact Hz|].
  apply (IH (z + 1) Hrest). lia.
Qed.

(** The month number repeats with the 400-year cycle of the calendar. *)
Lemma month_in_range_cycle (epochDay : Z) :
  month_in_range epochDay
  = month_in_range ((epochDay + 719468) mod 146097 - 719468).
Proof.
  unfold month_in_range, civil_from_days.
  replace (epochDay + 719468 - (epochDay + 719468) / 146097 * 146097)
    with ((epochDay + 719468) mod 146097)
    by (rewrite Z.mod_eq by lia; lia).
  replace ((epochDay + 719468) mod 146097 - 719468 + 719468)
    with ((epochDay + 719468) mod 146097) by lia.
  assert (Hr : 0 <= (epochDay + 719468) mod 146097 < 146097)
    by (apply Z.mod_pos_bound; lia).
  rewrite (Z.div_small _ _ Hr). rewrite Z.mul_0_l, Z.sub_0_r.
  reflexivity.
Qed.

Lemma month_in_range_one_cycle :
  all_from month_in_range (Z.to_nat 146097) (- 719468) = true.
Proof. vm_compute. reflexivity. Qed.

(** Every day falls in a month numbered 1 to 12. *)
Lemma calendarMonth_range (epochDay : Z) :
  1 <= snd (Spec.calendarMonth epochDay) <= 12.
Proof.
  assert (H : month_in_range epochDay = true).
  { rewrite month_in_range_cycle.
    apply (all_from_spec _ _ _ month_in_range_one_cycle).
    assert (Hr : 0 <= (epochDay + 719468) mod 146097 < 146097)
      by (apply Z.mod_pos_bound; lia).
    rewrite Z2Nat.id by lia. lia. }
  unfold month_in_range in H. unfold Spec.calendarMonth.
  destruct (civil_from_days epochDay) as [[y m] d]. cbn [snd].
  apply andb_true_iff in H. destruct H as [H1 H2].
  apply Z.leb_le in H1, H2. lia.
Qed.

Lemma to_int_not_nil (z : Z) :
  Z.to_int z <> Decimal.Pos Decimal.Nil /\ Z.to_int z <> Decimal.Neg Decimal.Nil.
Proof.
  split; intros H; pose proof (f_equal Z.of_int H) as H0;
    rewrite DecimalZ.of_to in H0; cbn in H0; subst z; discriminate H.
Qed.

Lemma string_of_Z_inj (a b : Z) : string_of_Z a = string_of_Z b -> a = b.
Proof.
  unfold string_of_Z. intros H.
  apply (f_equal NilZero.int_of_string) in H.
  destruct (to_int_not_nil a) as [Ha1 Ha2].
  destruct (to_int_not_nil b) as [Hb1 Hb2].
  rewrite !NilZero.isi in H by assumption.
  injection H as H. apply (f_equal Z.of_int) in H.
  now rewrite !DecimalZ.of_to in H.
Qed.

Lemma month_cases (m : Z) :
  1 <= m <= 12 ->
  m = 1 \/ m = 2 \/ m = 3 \/ m = 4 \/ m = 5 \/ m = 6
  \/ m = 7 \/ m = 8 \/ m = 9 \/ m = 10 \/ m = 11 \/ m = 12.
Proof. lia. Qed.

(** Different calendar months have different labels. *)
Lemma monthLabel_inj (y1 m1 y2 m2 : Z) :
  1 <= m1 <= 12 -> 1 <= m2 <= 12 ->
  monthLabel y1 m1 = monthLabel y2 m2 -> y1 = y2 /\ m1 = m2.
Proof.
  intros H1 H2. unfold monthLabel.
  pose proof (month_cases m1 H1) as C1.
  pose proof (month_cases m2 H2) as C2.
  repeat (destruct C1 as [C1|C1]); repeat (destruct C2 as [C2|C2]);
    subst m1 m2; cbn; intros H; try discriminate H;
    injection H as H; apply string_of_Z_inj in H; split; auto.
Qed.

Lemma label_eqb_sameMonth (a b : Z * Z) :
  1 <= snd a <= 12 -> 1 <= snd b <= 12 ->
  String.eqb (label_of a) (label_of b) = Spec.sameMonth a b.
Proof.
  intros Ha Hb. unfold Spec.sameMonth, label_of.
  destruct (String.eqb_spec (monthLabel (fst a) (snd a))
                            (monthLabel (fst b) (snd b))) as [Heq|Hne].
  - destruct (monthLabel_inj _ _ _ _ Ha Hb Heq) as [-> ->].
    now rewrite !Z.eqb_refl.
  - symmetry. apply not_true_is_false. intros H.
    apply andb_true_iff in H. destruct H as [Hy Hm].
    apply Z.eqb_eq in Hy, Hm. apply Hne. now rewrite Hy, Hm.
Qed.

Lemma filter_map_swap {A B : Type} (f : A -> B) (p : B -> bool) (l : list A) :
  filter p (map f l) = map f (filter (fun x => p (f x)) l).
Proof.
  induction l as [|x l IH]; simpl; [reflexivity|].
  destruct (p (f x)); simpl; now rewrite IH.
Qed.

(** First occurrences commute with a map that reflects the equality
    test. *)
Lemma first_occurrences_map {A B : Type} (eqA : A -> A -> bool)
      (eqB : B -> B -> bool) (f : A -> B) (l : list A) :
  (forall x y, In x l -> In y l -> eqB (f x) (f y) = eqA x y) ->
  Spec.first_occurrences eqB (map f l) = map f (Spec.first_occurrences eqA l).
Proof.
  induction l as [|k l IH]; intros H; [reflexivity|].
  cbn [map Spec.first_occurrences]. f_equal.
  rewrite IH by (intros x y Hx Hy; apply H; now right).
  rewrite filter_map_swap. f_equal. apply filter_ext_in.
  intros x Hx. rewrite H; [reflexivity| |now left].
  right. now apply In_first_occurrences in Hx.
Qed.

(** At or east of UTC a transaction is filed under the label of the
    calendar month of its own date. *)
Lemma monthKey_east (tz : Z) (t : Transaction.t) :
  0 <= tz < msPerDay ->
  monthKey tz t = label_of (Spec.calendarMonth (Transaction.date t)).
Proof.
  intros Htz. unfold monthKey, toLocaleMonthYear, label_of, Spec.calendarMonth.
  rewrite localDay_dateonly by exact Htz.
  now destruct (civil_from_days (Transaction.date t)) as [[y m] d].
Qed.

Lemma month_name_not_YYYY_MM (n : nat) (s : string) :
  Spec.is_YYYY_MM (nth n shortMonths EmptyString ++ String " "%char s) = false.
Proof.
  do 12 (destruct n as [|n];
         [destruct s as [|c1 [|c2 [|c3 [|c4 s]]]]; reflexivity|]).
  destruct n;
    destruct s as [|c1 [|c2 [|c3 [|c4 [|c5 [|c6 [|c7 s]]]]]]]; reflexivity.
Qed.

(** C8, as stated, fails: the keys of the series are labels such as
    [Feb 2025], none of the form [YYYY-MM]. *)
Lemma month_keys_are_labels_not_YYYY_MM :
  map MonthRow.month (VisualAnalysis.monthlySeries 0 sample_transactions)
  = ["Feb 2025"; "Jan 2025"]%string
  /\ existsb Spec.is_YYYY_MM
             (map MonthRow.month
                  (VisualAnalysis.monthlySeries 0 sample_transactions))
     = false.
Proof. split; reflexivity. Qed.

(** C8, amended.  At or east of UTC the monthly series has one row per
    calendar month of the transactions' dates, keyed by the en-US label of
    the month (short month name and year, never of the form [YYYY-MM]), in
    order of the first occurrence of each month, with the sum of the
    month's income amounts and the sum of its expense amounts. *)
Theorem monthlySeries_groups_by_month_label
        (tz : Z) (transactions : list Transaction.t) :
  0 <= tz < msPerDay ->
  VisualAnalysis.monthlySeries tz transactions = Spec.monthlySeries transactions
  /\ map MonthRow.month (VisualAnalysis.monthlySeries tz transactions)
     = map (fun ym => monthLabel (fst ym) (snd ym))
           (Spec.first_occurrences Spec.sameMonth
              (map (fun t => Spec.calendarMonth (Transaction.date t))
                   transactions))
  /\ (forall row : MonthRow.t,
        In row (VisualAnalysis.monthlySeries tz transactions) ->
        Spec.is_YYYY_MM (MonthRow.month row) = false).
Proof.
  intros Htz.
  set (cm := fun t => Spec.calendarMonth (Transaction.date t)).
  assert (Hkeys : map (monthKey tz) transactions
                  = map label_of (map cm transactions)).
  { rewrite map_map. apply map_ext. intros t. now apply monthKey_east. }
  assert (Hvalid : forall ym, In ym (map cm transactions) -> 1 <= snd ym <= 12).
  { intros ym Hin. apply in_map_iff in Hin. destruct Hin as [t [<- _]].
    apply calendarMonth_range. }
  assert (Heq : VisualAnalysis.monthlySeries tz transactions
                = Spec.monthlySeries transactions).
  { rewrite monthlySeries_by_key, Hkeys. unfold Spec.monthlySeries. fold cm.
    rewrite (first_occurrences_map Spec.sameMonth String.eqb label_of)
      by (intros x y Hx Hy; apply label_eqb_sameMonth; now apply Hvalid).
    rewrite map_map. apply map_ext_in. intros ym Hym.
    apply In_first_occurrences, Hvalid in Hym.
    unfold filed, Spec.inMonth, label_of.
    f_equal; f_equal; apply filter_ext; intros t;
      rewrite (monthKey_east tz t Htz);
      rewrite (label_eqb_sameMonth _ ym (calendarMonth_range _) Hym);
      reflexivity. }
  split; [exact Heq|]. split.
  - rewrite Heq. unfold Spec.monthlySeries. rewrite map_map. reflexivity.
  - intros row Hin. rewrite Heq in Hin. unfold Spec.monthlySeries in Hin.
    apply in_map_iff in Hin. destruct Hin as [ym [<- _]]. cbn [MonthRow.month].
    apply month_name_not_YYYY_MM.
Qed.

Lemma monthlySeries_groups_by_month_label_witness :
  (0 <= tz_IST < msPerDay)
  /\ VisualAnalysis.monthlySeries tz_IST sample_transactions
     = [MonthRow.mk "Feb 2025" (Fin (0 + 1000)) (Fin (0 + 100));
        MonthRow.mk "Jan 2025" (Fin 0) (Fin (0 + 400))]
  /\ VisualAnalysis.monthlySeries tz_IST sample_transactions
     = Spec.monthlySeries sample_transactions.
Proof.
  assert (Htz : 0 <= tz_IST < msPerDay) by (unfold tz_IST, msPerDay; lia).
  split; [exact Htz|]. split; [reflexivity|].
  apply (monthlySeries_groups_by_month_label tz_IST sample_transactions Htz).
Defined.

(** West of UTC the date-only strings, read as UTC midnight, fall on the
    evening before: a bill due today is shown as overdue, and a
    transaction of the first of a month is filed under the month before. *)
Example west_of_utc_bill_due_today :
  localDay tz_EST sample_now = 20103
  /\ Bills.effectiveStatus tz_EST sample_now (sample_bill Pending 20103) = Overdue
  /\ Bills.effectiveStatus tz_IST sample_now (sample_bill Pending 20103) = Pending.
Proof. repeat split; reflexivity. Qed.

Example west_of_utc_first_of_month :
  map MonthRow.month (VisualAnalysis.monthlySeries tz_EST sample_transactions)
  = ["Jan 2025"; "Feb 2025"]%string
  /\ map MonthRow.month (Spec.monthlySeries sample_transactions)
     = ["Feb 2025"; "Jan 2025"]%string.
Proof. split; reflexivity. Qed.

(* ================================================================== *)
(** * Further properties of the pages *)
(* ================================================================== *)

Lemma add_comm (a b : number) : (a + b === b + a)%js.
Proof. destruct a, b; simpl; try exact I. ring. Qed.

Lemma add_finite (a b : number) :
  is_finite a = true -> is_finite b = true -> is_finite (a + b)%js = true.
Proof. destruct a, b; simpl; intros; congruence. Qed.

(* ------------------------------------------------------------------ *)
(** ** Bills page *)
(* ------------------------------------------------------------------ *)

(** X1.  The status derivation of [loadBills] is idempotent: applied to a
    bill it has already been applied to, it changes nothing. *)
Theorem billWithStatus_idempotent (tz now : Z) (bill : Bill.t) :
  Bills.billWithStatus tz now (Bills.billWithStatus tz now bill)
  = Bills.billWithStatus tz now bill.
Proof.
  unfold Bills.billWithStatus.
  destruct (Bill.status bill) eqn:Hs; cbn [BillStatus_eqb negb].
  - rewrite Hs. reflexivity.
  - destruct (Date_of_dateonly (Bill.due_date bill) <? setHours0 tz now) eqn:Hd;
      cbn [Bill.with_status Bill.status Bill.due_date BillStatus_eqb negb];
      rewrite ?Hs; cbn [BillStatus_eqb negb]; rewrite Hd; reflexivity.
  - destruct (Date_of_dateonly (Bill.due_date bill) <? setHours0 tz now) eqn:Hd;
      cbn [Bill.with_status Bill.status Bill.due_date BillStatus_eqb negb];
      rewrite ?Hs; cbn [BillStatus_eqb negb]; rewrite Hd; reflexivity.
Qed.









(** X4.  After the derivation of [loadBills], at or east of UTC, the
    pending section holds no bill whose due day is before today, and every
    bill fetched as not paid whose due day is before today sits in the
    overdue section. *)
Theorem pending_section_not_past_due (tz now : Z) (data : list Bill.t) :
  0 <= tz < msPerDay ->
  (forall b : Bill.t,
     In b (Bills.pendingBills (Bills.billsWithStatus tz now data)) ->
     localDay tz now <= Bill.due_date b)
  /\ (forall b : Bill.t,
        In b data ->
        Bill.status b <> Paid ->
        Bill.due_date b < localDay tz now ->
        In (Bill.with_status b Overdue)
           (Bills.overdueBills (Bills.billsWithStatus tz now data))).
Proof.
  intros Htz.
  unfold Bills.pendingBills, Bills.overdueBills, Bills.billsOfStatus,
    Bills.billsWithStatus.
  split.
  - intros b Hb. apply filter_In in Hb. destruct Hb as [Hin Hs].
    apply in_map_iff in Hin. destruct Hin as [b0 [<- _]].
    unfold Bills.billWithStatus in *.
    rewrite (dateonly_before_today tz now _ Htz) in *.
    destruct (Bill.status b0) eqn:Hs0; cbn [BillStatus_eqb negb] in *.
    + rewrite Hs0 in Hs. discriminate.
    + destruct (Z.ltb_spec (Bill.due_date b0) (localDay tz now)).
      * discriminate.
      * assumption.
    + destruct (Z.ltb_spec (Bill.due_date b0) (localDay tz now)).
      * discriminate.
      * rewrite Hs0 in Hs. discriminate.
  - intros b Hin Hunpaid Hdue. apply filter_In. split; [|reflexivity].
    apply in_map_iff. exists b. split; [|exact Hin].
    unfold Bills.billWithStatus.
    rewrite (dateonly_before_today tz now _ Htz).
    apply Z.ltb_lt in Hdue. rewrite Hdue.
    destruct (Bill.status b); cbn [BillStatus_eqb negb];
      [contradiction|reflexivity|reflexivity].
Qed.

Lemma pending_section_not_past_due_witness :
  (0 <= tz_IST < msPerDay)
  /\ Forall (fun b => localDay tz_IST sample_now <= Bill.due_date b)
            (Bills.pendingBills
               (Bills.billsWithStatus tz_IST sample_now
                  (Store.bills sample_bills_db))).
Proof.
  assert (Htz : 0 <= tz_IST < msPerDay) by (unfold tz_IST, msPerDay; lia).
  split; [exact Htz|]. apply Forall_forall.
  destruct (pending_section_not_past_due tz_IST sample_now
              (Store.bills sample_bills_db) Htz) as [H _].
  exact H.
Defined.

(** X5.  The derivation leaves the paid section alone: the paid bills
    shown, and their total, are those stored as paid, at every time of
    loading. *)
Theorem paid_section_is_stored_paid (tz now : Z) (data : list Bill.t) :
  Bills.paidBills (Bills.billsWithStatus tz now data) = Bills.paidBills data
  /\ BillsPage.totalPaid (Bills.billsWithStatus tz now data)
     = BillsPage.totalPaid data.
Proof.
  assert (H : Bills.paidBills (Bills.billsWithStatus tz now data)
              = Bills.paidBills data).
  { unfold Bills.paidBills, Bills.billsOfStatus, Bills.billsWithStatus.
    induction data as [|b data IH]; [reflexivity|].
    cbn [map filter]. rewrite IH. unfold Bills.billWithStatus.
    destruct (Bill.status b) eqn:Hs; cbn [BillStatus_eqb negb].
    - rewrite Hs. reflexivity.
    - destruct (Date_of_dateonly (Bill.due_date b) <? setHours0 tz now);
        cbn [Bill.with_status Bill.status BillStatus_eqb]; rewrite ?Hs;
        reflexivity.
    - destruct (Date_of_dateonly (Bill.due_date b) <? setHours0 tz now);
        cbn [Bill.with_status Bill.status BillStatus_eqb]; rewrite ?Hs;
        reflexivity. }
  split; [exact H|]. unfold BillsPage.totalPaid. now rewrite H.
Qed.

(** X6.  Marking a bill as paid changes the status of the user's stored
    bill of that id and nothing else: after the next load the bill sits in
    the paid section whatever the date, the button is no longer offered
    for it, bills of another id are as before, and the other tables are
    untouched. *)
Theorem markAsPaid_moves_bill_to_paid
        (uid : string) (shown stored : Bill.t) (db : Store.Database)
        (tz now : Z) :
  In stored (Store.bills db) ->
  Bill.id stored = Bill.id shown ->
  Bill.user_id stored = uid ->
  let db' := BillsPage.markAsPaid uid shown db in
  In (Bill.with_status stored Paid)
     (Bills.paidBills (Bills.billsWithStatus tz now (Store.select_bills uid db')))
  /\ BillsPage.offersMarkAsPaid (Bill.with_status stored Paid) = false
  /\ (forall b : Bill.t,
        In b (Store.bills db) -> Bill.id b <> Bill.id shown ->
        In b (Store.bills db'))
  /\ List.length (Store.bills db') = List.length (Store.bills db)
  /\ Store.goals db' = Store.goals db
  /\ Store.transactions db' = Store.transactions db
  /\ Store.investments db' = Store.investments db.
Proof.
  intros Hin Hid Huser db'. subst db'. unfold BillsPage.markAsPaid.
  cbn [Store.bills Store.goals Store.transactions Store.investments].
  repeat split.
  - rewrite (proj1 (paid_section_is_stored_paid tz now _)).
    unfold Bills.paidBills, Bills.billsOfStatus, Store.select_bills.
    cbn [Store.bills].
    apply filter_In. split; [|reflexivity].
    apply filter_In. split.
    + apply in_map_iff. exists stored. split; [|exact Hin].
      now rewrite Hid, Huser, !String.eqb_refl.
    + cbn [Bill.with_status Bill.user_id]. rewrite Huser. apply String.eqb_refl.
  - intros b Hb Hne. apply in_map_iff. exists b. split; [|exact Hb].
    apply String.eqb_neq in Hne. now rewrite Hne.
  - apply length_map.
Qed.

Lemma markAsPaid_moves_bill_to_paid_witness :
  let stored := Bill.mk "b1" "u1" "Electricity" (Fin 1200) 20102 Pending
                        "utilities" false "2025-01-01T00:00:00Z" in
  let shown := Bill.with_status stored Overdue in
  In stored (Store.bills sample_bills_db)
  /\ In (Bill.with_status stored Paid)
        (Bills.paidBills
           (Bills.billsWithStatus tz_IST sample_now
              (Store.select_bills "u1"
                 (BillsPage.markAsPaid "u1" shown sample_bills_db)))).
Proof.
  intros stored shown.
  assert (Hin : In stored (Store.bills sample_bills_db)) by (simpl; auto).
  split; [exact Hin|].
  destruct (markAsPaid_moves_bill_to_paid "u1" shown stored sample_bills_db
              tz_IST sample_now Hin eq_refl eq_refl) as [H _].
  exact H.
Defined.

(* ------------------------------------------------------------------ *)
(** ** Dates typed as text: [formatDate] *)
(* ------------------------------------------------------------------ *)

Lemma includes_app (a b : string) (c : ascii) :
  ExportData.includes (a ++ b) c
  = ExportData.includes a c || ExportData.includes b c.
Proof.
  induction a as [|x a IH]; simpl; [reflexivity|].
  rewrite IH. now rewrite orb_assoc.
Qed.

Lemma split_plain (sep : ascii) (a : string) :
  ExportData.includes a sep = false -> Transactions.split sep a = [a].
Proof.
  induction a as [|x a IH]; simpl; [reflexivity|].
  intros H. apply orb_false_iff in H. destruct H as [Hx Ha].
  rewrite Hx, (IH Ha). reflexivity.
Qed.

Lemma split_at_sep (sep : ascii) (a rest : string) :
  ExportData.includes a sep = false ->
  Transactions.split sep (a ++ String sep rest)
  = a :: Transactions.split sep rest.
Proof.
  induction a as [|x a IH]; simpl.
  - intros _. now rewrite Ascii.eqb_refl.
  - intros H. apply orb_false_iff in H. destruct H as [Hx Ha].
    rewrite Hx, (IH Ha). reflexivity.
Qed.

Local Notation "a -- b" := (a ++ String Transactions.hyphen b)%string
  (at level 60, right associativity).

Lemma includes_hyphen_joined (a b : string) :
  ExportData.includes (a -- b) Transactions.hyphen = true.
Proof.
  rewrite includes_app. cbn [ExportData.includes].
  rewrite Ascii.eqb_refl. cbn [orb]. apply orb_true_r.
Qed.

(** X7.  [formatDate] turns a day-first date into a year-first date: a
    text of three hyphen-free parts whose first part has two characters
    comes back with the first and the third part exchanged. *)
Theorem formatDate_day_first (d m y : string) :
  ExportData.includes d Transactions.hyphen = false ->
  ExportData.includes m Transactions.hyphen = false ->
  ExportData.includes y Transactions.hyphen = false ->
  String.length d = 2%nat ->
  Transactions.formatDate (d -- m -- y) = (y -- m -- d).
Proof.
  intros Hd Hm Hy Hlen. unfold Transactions.formatDate.
  rewrite includes_hyphen_joined.
  rewrite (split_at_sep _ d _ Hd), (split_at_sep _ m _ Hm), (split_plain _ y Hy).
  cbn [nth nth_error Transactions.interpolate andb]. rewrite Hlen. reflexivity.
Qed.

Lemma formatDate_day_first_witness :
  String.length "15"%string = 2%nat
  /\ Transactions.formatDate "15-01-2025" = "2025-01-15"%string.
Proof.
  split; [reflexivity|].
  apply (formatDate_day_first "15" "01" "2025"); reflexivity.
Defined.

(** X8.  [formatDate] leaves alone every text without a hyphen and every
    text whose part before the first hyphen does not have two characters;
    in particular a year-first date with a four-digit year passes
    unchanged. *)
Theorem formatDate_keeps_other_shapes (a rest : string) :
  ExportData.includes a Transactions.hyphen = false ->
  Transactions.formatDate a = a
  /\ (String.length a <> 2%nat ->
      Transactions.formatDate (a -- rest) = (a -- rest)).
Proof.
  intros Ha. unfold Transactions.formatDate. split.
  - now rewrite Ha.
  - intros Hlen. rewrite includes_hyphen_joined, (split_at_sep _ a _ Ha).
    cbn [nth andb]. apply Nat.eqb_neq in Hlen. now rewrite Hlen.
Qed.

Lemma formatDate_keeps_other_shapes_witness :
  ExportData.includes "2025" Transactions.hyphen = false
  /\ Transactions.formatDate "2025-01-15" = "2025-01-15"%string.
Proof.
  split; [reflexivity|].
  apply (formatDate_keeps_other_shapes "2025" "01-15"); [reflexivity|].
  simpl. discriminate.
Defined.

(** X9.  Applying [formatDate] twice to a day-first date gives the
    year-first date again when the year does not have two characters, and
    gives back the day-first text when it has: with a two-character year
    the function exchanges the outer parts every time. *)
Theorem formatDate_twice (d m y : string) :
  ExportData.includes d Transactions.hyphen = false ->
  ExportData.includes m Transactions.hyphen = false ->
  ExportData.includes y Transactions.hyphen = false ->
  String.length d = 2%nat ->
  Transactions.formatDate (Transactions.formatDate (d -- m -- y))
  = if Nat.eqb (String.length y) 2 then (d -- m -- y) else (y -- m -- d).
Proof.
  intros Hd Hm Hy Hlen. rewrite (formatDate_day_first d m y Hd Hm Hy Hlen).
  destruct (Nat.eqb (String.length y) 2) eqn:E.
  - apply Nat.eqb_eq in E. now apply formatDate_day_first.
  - apply Nat.eqb_neq in E.
    now apply (formatDate_keeps_other_shapes y (m -- d) Hy).
Qed.

Lemma formatDate_twice_witness :
  String.length "20"%string = 2%nat
  /\ Transactions.formatDate (Transactions.formatDate "20-01-05")
     = "20-01-05"%string
  /\ Transactions.formatDate (Transactions.formatDate "20-01-2005")
     = "2005-01-20"%string.
Proof.
  split; [reflexivity|]. split.
  - apply (formatDate_twice "20" "01" "05"); reflexivity.
  - apply (formatDate_twice "20" "01" "2005"); reflexivity.
Defined.

(** X10.  Shapes [formatDate] does not expect, behind a two-character
    first part: with only two parts the missing year is spelled
    [undefined], and parts after the third are dropped. *)
Theorem formatDate_wrong_part_count (d m y rest : string) :
  ExportData.includes d Transactions.hyphen = false ->
  ExportData.includes m Transactions.hyphen = false ->
  ExportData.includes y Transactions.hyphen = false ->
  String.length d = 2%nat ->
  Transactions.formatDate (d -- m) = ("undefined" -- m -- d)
  /\ Transactions.formatDate (d -- m -- y -- rest) = (y -- m -- d).
Proof.
  intros Hd Hm Hy Hlen. unfold Transactions.formatDate.
  rewrite !includes_hyphen_joined. split.
  - rewrite (split_at_sep _ d _ Hd), (split_plain _ m Hm).
    cbn [nth nth_error Transactions.interpolate andb]. rewrite Hlen. reflexivity.
  - rewrite (split_at_sep _ d _ Hd), (split_at_sep _ m _ Hm),
      (split_at_sep _ y _ Hy).
    cbn [nth nth_error Transactions.interpolate andb]. rewrite Hlen. reflexivity.
Qed.

Lemma formatDate_wrong_part_count_witness :
  String.length "12"%string = 2%nat
  /\ Transactions.formatDate "12-01" = "undefined-01-12"%string
  /\ Transactions.formatDate "12-01-2025-extra" = "2025-01-12"%string.
Proof.
  split; [reflexivity|].
  apply (formatDate_wrong_part_count "12" "01" "2025" "extra"); reflexivity.
Defined.

(** X11.  Splitting a text at a separator and joining the parts with the
    separator gives the text back; no part contains the separator. *)
Theorem split_join_roundtrip (sep : ascii) (s : string) :
  String.concat (String sep EmptyString) (Transactions.split sep s) = s
  /\ Forall (fun part => ExportData.includes part sep = false)
            (Transactions.split sep s).
Proof.
  split.
  - induction s as [|c s IH]; [reflexivity|].
    cbn [Transactions.split].
    destruct (Transactions.split sep s) as [|p ps] eqn:Hs;
      [now apply split_not_nil in Hs|].
    destruct (Ascii.eqb c sep) eqn:E.
    + apply Ascii.eqb_eq in E. subst c.
      change (String.concat (String sep EmptyString) (EmptyString :: p :: ps))
        with (String sep (String.concat (String sep EmptyString) (p :: ps))).
      now rewrite IH.
    + assert (Hc : String.concat (String sep EmptyString) (String c p :: ps)
                   = String c (String.concat (String sep EmptyString) (p :: ps)))
        by (destruct ps; reflexivity).
      now rewrite Hc, IH.
  - induction s as [|c s IH]; [repeat constructor|].
    cbn [Transactions.split].
    destruct (Ascii.eqb c sep) eqn:E.
    + constructor; [reflexivity|exact IH].
    + destruct (Transactions.split sep s) as [|p ps]; [repeat constructor|].
      * simpl. now rewrite E.
      * inversion IH; subst. constructor; [|assumption].
        simpl. now rewrite E.
Qed.

(* ------------------------------------------------------------------ *)
(** ** Transactions page *)
(* ------------------------------------------------------------------ *)






(** The filter of the Transactions page: with [all] every
    transaction is listed; with [income] or [expense] exactly the
    transactions of that type, in their order; each transaction is listed
    under exactly one of the two types. *)
Theorem filteredTransactions_by_type (transactions : list Transaction.t) :
  TransactionsPage.filteredTransactions TransactionsPage.FilterAll transactions
  = transactions
  /\ (forall t : Transaction.t,
        In t (TransactionsPage.filteredTransactions
                TransactionsPage.FilterIncome transactions)
        <-> In t transactions /\ Transaction.type t = Income)
  /\ (forall t : Transaction.t,
        In t (TransactionsPage.filteredTransactions
                TransactionsPage.FilterExpense transactions)
        <-> In t transactions /\ Transaction.type t = Expense)
  /\ Nat.add
       (List.length (TransactionsPage.filteredTransactions
                       TransactionsPage.FilterIncome transactions))
       (List.length (TransactionsPage.filteredTransactions
                       TransactionsPage.FilterExpense transactions))
     = List.length transactions.
Proof.
  unfold TransactionsPage.filteredTransactions. repeat split.
  - apply filter_all. reflexivity.
  - now apply filter_In in H.
  - apply filter_In in H. destruct H as [_ H].
    now destruct (Transaction.type t).
  - intros [Hin Hty]. apply filter_In. now rewrite Hty.
  - now apply filter_In in H.
  - apply filter_In in H. destruct H as [_ H].
    now destruct (Transaction.type t).
  - intros [Hin Hty]. apply filter_In. now rewrite Hty.
  - induction transactions as [|t ts IH]; [reflexivity|].
    cbn [filter]. destruct (Transaction.type t); cbn [TxType_eqb List.length]; lia.
Qed.









(* ------------------------------------------------------------------ *)
(** ** Finite and non-negative amounts *)
(* ------------------------------------------------------------------ *)

Lemma nonneg_finite (a : number) : nonneg a = true -> is_finite a = true.
Proof. now destruct a. Qed.

Lemma add_nonneg (a b : number) :
  nonneg a = true -> nonneg b = true -> nonneg (a + b)%js = true.
Proof.
  destruct a as [p| | |], b as [q| | |]; simpl; try discriminate.
  intros Hp Hq. apply Qle_bool_iff in Hp, Hq. apply Qle_bool_iff.
  replace 0%Q with (0 + 0)%Q by reflexivity. now apply Qplus_le_compat.
Qed.


Lemma reduce_nonneg {A : Type} (f : A -> number) (l : list A) :
  Forall (fun x => nonneg (f x) = true) l ->
  forall a : number,
    nonneg a = true ->
    nonneg (fold_left (fun sum x => (sum + Number (f x))%js) l a) = true.
Proof.
  induction 1 as [|x l Hx _ IH]; intros a Ha; [exact Ha|].
  cbn [fold_left]. apply IH. now apply add_nonneg.
Qed.

Lemma Forall_filter {A : Type} (P : A -> Prop) (p : A -> bool) (l : list A) :
  Forall P l -> Forall P (filter p l).
Proof.
  intros H. apply Forall_forall. intros x Hx. apply filter_In in Hx.
  destruct Hx as [Hx _]. revert x Hx. now apply Forall_forall.
Qed.


Lemma totalOfType_nonneg (ty : TxType) (transactions : list Transaction.t) :
  Forall (fun t => nonneg (Transaction.amount t) = true) transactions ->
  nonneg (Dashboard.totalOfType ty transactions) = true.
Proof.
  intros H. unfold Dashboard.totalOfType.
  apply (reduce_nonneg Transaction.amount); [|reflexivity].
  now apply Forall_filter.
Qed.

(* ------------------------------------------------------------------ *)
(** ** Dashboard: savings rate *)
(* ------------------------------------------------------------------ *)

(** The quotient shown as savings rate, for finite totals and a positive
    income. *)
Lemma savings_quotient (i e : Q) :
  Qle_bool i 0 = false ->
  (((Fin i - Fin e) / Fin i) * hundred)%js = Fin ((i + - e) / i * 100).
Proof.
  intros Hi. cbn [sub neg add div mul hundred].
  assert (Hz : Qis_zero i = false).
  { unfold Qis_zero. apply not_true_is_false. intros H.
    apply Qeq_bool_iff in H.
    assert (Hle : Qle_bool i 0 = true) by (apply Qle_bool_iff; rewrite H; apply Qle_refl).
    congruence. }
  now rewrite Hz.
Qed.



(** X17.  With amounts that are finite and not negative the savings rate
    never exceeds 100. *)
Theorem savingsRate_at_most_100
        (transactions : list Transaction.t) (goals : list Goal.t)
        (bills : list Bill.t) (investments : list Investment.t) :
  Forall (fun t => nonneg (Transaction.amount t) = true) transactions ->
  gtb (DashboardView.savingsRate
         (Dashboard.stats transactions goals bills investments)) hundred
  = false.
Proof.
  intros Hnn. unfold DashboardView.savingsRate.
  cbn [Dashboard.stats Dashboard.totalIncome Dashboard.totalExpenses].
  pose proof (totalOfType_nonneg Income transactions Hnn) as HI.
  pose proof (totalOfType_nonneg Expense transactions Hnn) as HE.
  destruct (Dashboard.totalOfType Income transactions) as [i| | |];
    try discriminate HI.
  destruct (Dashboard.totalOfType Expense transactions) as [e| | |];
    try discriminate HE.
  cbn [nonneg] in HI, HE. apply Qle_bool_iff in HI, HE.
  destruct (gtb (Fin i) zero) eqn:Hg; [|reflexivity].
  cbn [gtb ltb zero] in Hg. apply negb_true_iff in Hg.
  rewrite (savings_quotient i e Hg).
  cbn [gtb ltb hundred]. apply negb_false_iff. apply Qle_bool_iff.
  assert (Hpos : (0 < i)%Q).
  { apply Qnot_le_lt. intros Hle. apply Qle_bool_iff in Hle. congruence. }
  assert (Hq : ((i + - e) / i <= 1)%Q).
  { apply Qle_shift_div_r; [exact Hpos|].
    rewrite Qmult_1_l.
    setoid_replace i with (i + 0)%Q at 2 by ring.
    apply Qplus_le_compat; [apply Qle_refl|].
    setoid_replace 0%Q with (- 0)%Q by ring. now apply Qopp_le_compat. }
  setoid_replace 100%Q with (1 * 100)%Q at 2 by ring.
  apply Qmult_le_compat_r; [exact Hq|discriminate].
Qed.

Lemma savingsRate_at_most_100_witness :
  Forall (fun t => nonneg (Transaction.amount t) = true) sample_transactions
  /\ gtb (DashboardView.savingsRate
             (Dashboard.stats sample_transactions [] [] [])) hundred
     = false.
Proof.
  assert (H : Forall (fun t => nonneg (Transaction.amount t) = true)
                     sample_transactions) by (repeat constructor).
  split; [exact H|].
  exact (savingsRate_at_most_100 sample_transactions [] [] [] H).
Defined.

(** The design document's scenario: a savings rate of 50. *)
Example scenario_savings_rate :
  (DashboardView.savingsRate (Dashboard.stats sample_transactions [] [] [])
   === Fin 50)%js.
Proof. reflexivity. Qed.

(* ------------------------------------------------------------------ *)
(** ** Goals page *)
(* ------------------------------------------------------------------ *)

(** X18.  The width of a goal's progress bar is never above 100, whatever
    the amounts of the goal. *)
Theorem progressBarWidth_at_most_100 (goal : Goal.t) :
  gtb (InvestmentGoals.progressBarWidth goal) hundred = false.
Proof.
  unfold InvestmentGoals.progressBarWidth, Math_min, hundred.
  destruct (InvestmentGoals.progress goal) as [p| | |]; try reflexivity.
  cbn [ltb]. destruct (Qle_bool p 100) eqn:E; cbn [negb gtb ltb].
  - now rewrite E.
  - reflexivity.
Qed.







(** X21.  A new goal submitted without a deadline and with finite amounts
    is saved with a null deadline, whatever the store makes of date texts:
    the empty text never reaches the date conversion. *)
Theorem goal_without_deadline_is_saved
        (parseFloat : string -> number) (date_in : string -> option Z)
        (uid new_id stamp : string) (formData : GoalsPage.FormData)
        (db : Store.Database) :
  GoalsPage.deadline formData = EmptyString ->
  is_finite (parseFloat (GoalsPage.target_amount formData)) = true ->
  is_finite (parseFloat (GoalsPage.current_amount formData)) = true ->
  GoalsPage.handleSubmit parseFloat date_in uid new_id stamp None formData db
  = (Store.mkDatabase
       (Store.goals db
          ++ [Goal.mk new_id uid (GoalsPage.title formData)
                      (parseFloat (GoalsPage.target_amount formData))
                      (parseFloat (GoalsPage.current_amount formData))
                      None (GoalsPage.category formData)
                      (GoalsPage.description formData) stamp stamp])
       (Store.transactions db) (Store.bills db) (Store.investments db),
     true).
Proof.
  intros Hd Ht Hc.
  unfold GoalsPage.handleSubmit, GoalsPage.insert, GoalsPage.deadline_in.
  now rewrite Hd, Ht, Hc.
Qed.

Lemma goal_without_deadline_is_saved_witness :
  GoalsPage.deadline sample_goal_form = EmptyString
  /\ snd (GoalsPage.handleSubmit Transactions.parseFloat_digits
            (fun _ => None) "u1" "g9" "2025-01-15T10:00:00Z" None
            sample_goal_form empty_db)
     = true.
Proof.
  split; [reflexivity|].
  rewrite (goal_without_deadline_is_saved Transactions.parseFloat_digits
             (fun _ => None) "u1" "g9" "2025-01-15T10:00:00Z"
             sample_goal_form empty_db eq_refl eq_refl eq_refl).
  reflexivity.
Defined.

(** X22.  A user cannot delete the goal of another user: when no goal of
    the given id belongs to the caller, [deleteGoal] leaves the store as it
    is, goals and investment links included; so does a dialog that is not
    confirmed. *)
Theorem deleteGoal_of_other_user_changes_nothing
        (uid id : string) (db : Store.Database) :
  (forall g : Goal.t,
     In g (Store.goals db) -> Goal.id g = id -> Goal.user_id g <> uid) ->
  InvestmentGoals.deleteGoal uid id true db = db
  /\ InvestmentGoals.deleteGoal uid id false db = db.
Proof.
  intros Hforeign. split; [|reflexivity].
  assert (Hnone : forall g, In g (Store.goals db) ->
                            Store.goal_deleted uid id g = false).
  { intros g Hg. unfold Store.goal_deleted.
    destruct (String.eqb_spec (Goal.id g) id) as [Heq|Hne]; [|reflexivity].
    apply String.eqb_neq. now apply Hforeign. }
  unfold InvestmentGoals.deleteGoal, Store.delete_goal. cbn [negb].
  destruct db as [gs ts bs invs]. cbn [Store.goals Store.transactions
                                        Store.bills Store.investments] in *.
  f_equal.
  - apply filter_all. intros g Hg. now rewrite (Hnone g Hg).
  - rewrite <- (map_id invs) at 2. apply map_ext. intros i.
    unfold Store.on_delete_set_null, Store.references_deleted.
    destruct (Investment.goal_id i) as [g0|]; [|reflexivity].
    assert (Hex : existsb (fun x => Store.goal_deleted uid id x
                                    && String.eqb (Goal.id x) g0) gs = false).
    { apply not_true_is_false. intros H. apply existsb_exists in H.
      destruct H as [x [Hx H]]. now rewrite (Hnone x Hx) in H. }
    now rewrite Hex.
Qed.

Lemma deleteGoal_of_other_user_changes_nothing_witness :
  InvestmentGoals.deleteGoal "u2" "g1" true sample_db_goals = sample_db_goals.
Proof.
  assert (H : forall g : Goal.t,
             In g (Store.goals sample_db_goals) -> Goal.id g = "g1"%string ->
             Goal.user_id g <> "u2"%string).
  { intros g [<-|[<-|[]]] _; discriminate. }
  destruct (deleteGoal_of_other_user_changes_nothing "u2" "g1" sample_db_goals H)
    as [H1 _].
  exact H1.
Defined.

(* ------------------------------------------------------------------ *)
(** ** Objects: lookup after assignment, enumeration *)
(* ------------------------------------------------------------------ *)

Import Breakdown.

Lemma get_set {V : Type} (obj : JsObject.t V) (k k' : string) (v : V) :
  JsObject.get (JsObject.set obj k v) k'
  = if String.eqb k k' then Some v else JsObject.get obj k'.
Proof.
  induction obj as [|[k0 w] obj IH]; cbn [JsObject.set JsObject.get].
  - destruct (String.eqb k k'); reflexivity.
  - destruct (String.eqb k0 k) eqn:E0; cbn [JsObject.get].
    + apply String.eqb_eq in E0. subst k0.
      destruct (String.eqb k k'); reflexivity.
    + rewrite IH. destruct (String.eqb k0 k') eqn:E1; [|reflexivity].
      apply String.eqb_eq in E1. subst k0. now rewrite (String.eqb_sym k k'), E0.
Qed.

Lemma keys_set {V : Type} (obj : JsObject.t V) (k : string) (v : V) :
  keys (JsObject.set obj k v)
  = if existsb (String.eqb k) (keys obj) then keys obj else keys obj ++ [k].
Proof.
  unfold keys.
  induction obj as [|[k0 w] obj IH]; cbn [JsObject.set map fst existsb];
    [reflexivity|].
  rewrite (String.eqb_sym k k0).
  destruct (String.eqb k0 k) eqn:E; cbn [map fst orb]; [reflexivity|].
  rewrite IH. now destruct (existsb (String.eqb k) (map fst obj)).
Qed.

Lemma In_set {V : Type} (obj : JsObject.t V) (k : string) (v : V)
      (e : string * V) :
  In e (JsObject.set obj k v) -> e = (k, v) \/ In e obj.
Proof.
  induction obj as [|[k0 w] obj IH]; cbn [JsObject.set In].
  - intros [<-|[]]. now left.
  - destruct (String.eqb k0 k) eqn:E; cbn [In].
    + apply String.eqb_eq in E. subst k0. intros [<-|H]; auto.
    + intros [<-|H]; auto. destruct (IH H); auto.
Qed.

Lemma get_of_In {V : Type} (obj : JsObject.t V) (k : string) (v : V) :
  NoDup (keys obj) -> In (k, v) obj -> JsObject.get obj k = Some v.
Proof.
  unfold keys.
  induction obj as [|[k0 w] obj IH]; cbn [map fst In JsObject.get];
    intros Hnd Hin; [contradiction|].
  inversion Hnd as [|? ? Hnotin Hnd']; subst.
  destruct Hin as [Heq|Hin].
  - inversion Heq; subst. now rewrite String.eqb_refl.
  - destruct (String.eqb k0 k) eqn:E; [|now apply IH].
    apply String.eqb_eq in E. subst k0. exfalso. apply Hnotin.
    change k with (fst (k, v)). now apply in_map.
Qed.

Lemma insert_by_index_perm {V : Type} (e : string * V) (l : list (string * V)) :
  Permutation (JsObject.insert_by_index e l) (e :: l).
Proof.
  induction l as [|e' l IH]; cbn [JsObject.insert_by_index]; [reflexivity|].
  destruct (JsObject.decimal_value 0 (fst e) <=? JsObject.decimal_value 0 (fst e'));
    [reflexivity|].
  rewrite IH. apply perm_swap.
Qed.

Lemma filter_split_perm {A : Type} (p : A -> bool) (l : list A) :
  Permutation (filter p l ++ filter (fun x => negb (p x)) l) l.
Proof.
  induction l as [|x l IH]; cbn [filter]; [reflexivity|].
  destruct (p x); cbn [negb app].
  - now constructor.
  - rewrite <- Permutation_middle. now constructor.
Qed.

(** [Object.entries] lists every property exactly once. *)
Lemma Object_entries_perm {V : Type} (obj : JsObject.t V) :
  Permutation (JsObject.Object_entries obj) obj.
Proof.
  unfold JsObject.Object_entries.
  rewrite <- (filter_split_perm (fun e => JsObject.is_array_index (fst e)) obj) at 3.
  apply Permutation_app_tail.
  induction (filter (fun e => JsObject.is_array_index (fst e)) obj) as [|e l IH];
    cbn [fold_right]; [reflexivity|].
  rewrite insert_by_index_perm. now constructor.
Qed.

Lemma sort_insert_perm {A : Type} (cmp : A -> A -> number) (x : A) (l : list A) :
  Permutation (VisualAnalysis.sort_insert cmp x l) (x :: l).
Proof.
  induction l as [|y l IH]; cbn [VisualAnalysis.sort_insert]; [reflexivity|].
  destruct (gtb (cmp x y) zero); [|reflexivity].
  rewrite IH. apply perm_swap.
Qed.

(** Sorting rearranges the rows and does nothing else. *)
Lemma Array_sort_perm {A : Type} (cmp : A -> A -> number) (l : list A) :
  Permutation (VisualAnalysis.Array_sort cmp l) l.
Proof.
  unfold VisualAnalysis.Array_sort.
  induction l as [|x l IH]; cbn [fold_right]; [reflexivity|].
  rewrite sort_insert_perm. now constructor.
Qed.

(** The rows of the breakdown are, up to their order, the properties of
    the category object, each with its share of the total. *)
Lemma categoryBreakdown_perm (ty : TxType) (transactions : list Transaction.t) :
  Permutation
    (VisualAnalysis.categoryBreakdown ty transactions)
    (map (fun e => CategoryData.mk (fst e) (snd e)
                     ((snd e
                       / VisualAnalysis.total
                           (VisualAnalysis.transactionsOfType ty transactions))
                      * hundred)%js)
         (VisualAnalysis.categoriesOf
            (VisualAnalysis.transactionsOfType ty transactions))).
Proof.
  unfold VisualAnalysis.categoryBreakdown, VisualAnalysis.categoryData.
  rewrite Array_sort_perm. apply Permutation_map. apply Object_entries_perm.
Qed.

(* ------------------------------------------------------------------ *)
(** ** Category breakdown: names *)
(* ------------------------------------------------------------------ *)

Lemma existsb_eqb_In (k : string) (ks : list string) :
  existsb (String.eqb k) ks = true <-> In k ks.
Proof.
  rewrite existsb_exists. split.
  - intros [x [Hx Hk]]. apply String.eqb_eq in Hk. now subst.
  - intros H. exists k. split; [exact H|apply String.eqb_refl].
Qed.

Lemma keys_addToCategory (obj : JsObject.t number) (t : Transaction.t) :
  keys (VisualAnalysis.addToCategory obj t)
  = if existsb (String.eqb (Transaction.category t)) (keys obj)
    then keys obj else keys obj ++ [Transaction.category t].
Proof. unfold VisualAnalysis.addToCategory. apply keys_set. Qed.

Lemma categoriesOf_keys (l : list Transaction.t) :
  forall obj : JsObject.t number,
    NoDup (keys obj) ->
    NoDup (keys (fold_left VisualAnalysis.addToCategory l obj))
    /\ (forall c : string,
          In c (keys (fold_left VisualAnalysis.addToCategory l obj))
          <-> In c (keys obj)
              \/ exists t, In t l /\ Transaction.category t = c).
Proof.
  induction l as [|t l IH]; intros obj Hnd; cbn [fold_left].
  - split; [exact Hnd|]. intros c. split; [auto|].
    intros [H|[t [[] _]]]. exact H.
  - assert (Hnd' : NoDup (keys (VisualAnalysis.addToCategory obj t))).
    { rewrite keys_addToCategory.
      destruct (existsb (String.eqb (Transaction.category t)) (keys obj)) eqn:E;
        [exact Hnd|].
      apply NoDup_app; [exact Hnd|repeat constructor; intros []|].
      intros x Hx [<-|[]].
      apply existsb_eqb_In in Hx. congruence. }
    destruct (IH _ Hnd') as [H1 H2]. split; [exact H1|].
    intros c. rewrite H2, keys_addToCategory.
    destruct (existsb (String.eqb (Transaction.category t)) (keys obj)) eqn:E.
    + apply existsb_eqb_In in E. split.
      * intros [H|[x [Hx Hc]]]; [now left|]. right. exists x. split; [now right|exact Hc].
      * intros [H|[x [[<-|Hx] Hc]]]; [now left| |].
        -- left. now rewrite <- Hc.
        -- right. now exists x.
    + split.
      * intros [H|[x [Hx Hc]]].
        -- apply in_app_or in H. destruct H as [H|[<-|[]]]; [now left|].
           right. exists t. split; [now left|reflexivity].
        -- right. exists x. split; [now right|exact Hc].
      * intros [H|[x [[<-|Hx] Hc]]].
        -- left. apply in_or_app. now left.
        -- left. apply in_or_app. right. left. exact Hc.
        -- right. now exists x.
Qed.

(** X23.  The category breakdown has exactly one row per category: when no
    category is a name inherited from [Object.prototype], the categories
    of its rows are pairwise different, and they are the categories of the
    transactions of the requested type. *)
Theorem categoryBreakdown_one_row_per_category
        (ty : TxType) (transactions : list Transaction.t) :
  plainCategories transactions ->
  NoDup (map CategoryData.category
             (VisualAnalysis.categoryBreakdown ty transactions))
  /\ (forall c : string,
        In c (map CategoryData.category
                  (VisualAnalysis.categoryBreakdown ty transactions))
        <-> exists t : Transaction.t,
              In t transactions /\ Transaction.type t = ty
              /\ Transaction.category t = c).
Proof.
  intros _.
  pose proof (categoryBreakdown_perm ty transactions) as Hp.
  apply (Permutation_map CategoryData.category) in Hp.
  rewrite map_map in Hp. cbn [CategoryData.category] in Hp.
  fold (keys (VisualAnalysis.categoriesOf
                (VisualAnalysis.transactionsOfType ty transactions))) in Hp.
  destruct (categoriesOf_keys
              (VisualAnalysis.transactionsOfType ty transactions)
              JsObject.empty (NoDup_nil _)) as [Hnd Hin].
  fold (VisualAnalysis.categoriesOf
          (VisualAnalysis.transactionsOfType ty transactions)) in Hnd, Hin.
  split.
  - apply (Permutation_NoDup (Permutation_sym Hp) Hnd).
  - intros c. split.
    + intros H. apply (Permutation_in _ Hp) in H. apply Hin in H.
      destruct H as [[]|[t [Ht Hc]]].
      unfold VisualAnalysis.transactionsOfType in Ht. apply filter_In in Ht.
      destruct Ht as [Ht Hty]. exists t. repeat split; try assumption.
      now destruct (Transaction.type t), ty.
    + intros [t [Ht [Hty Hc]]].
      apply (Permutation_in _ (Permutation_sym Hp)). apply Hin. right.
      exists t. split; [|exact Hc].
      unfold VisualAnalysis.transactionsOfType. apply filter_In.
      split; [exact Ht|]. rewrite Hty. now destruct ty.
Qed.

Lemma sample_plainCategories : plainCategories sample_transactions.
Proof. repeat constructor. Qed.

Lemma sample_finiteAmounts : finiteAmounts sample_transactions.
Proof. repeat constructor. Qed.

Lemma categoryBreakdown_one_row_per_category_witness :
  NoDup (map CategoryData.category
             (VisualAnalysis.categoryBreakdown Expense sample_transactions)).
Proof.
  destruct (categoryBreakdown_one_row_per_category
              Expense sample_transactions sample_plainCategories) as [H _].
  exact H.
Defined.

(* ------------------------------------------------------------------ *)
(** ** Category breakdown: amounts *)
(* ------------------------------------------------------------------ *)

Lemma get_In {V : Type} (obj : JsObject.t V) (k : string) (v : V) :
  JsObject.get obj k = Some v -> exists k', In (k', v) obj.
Proof.
  induction obj as [|[k0 w] obj IH]; cbn [JsObject.get]; [discriminate|].
  destruct (String.eqb k0 k).
  - intros [= ->]. exists k0. now left.
  - intros H. destruct (IH H) as [k' Hk']. exists k'. now right.
Qed.

Lemma or_else_finite (v : number) :
  is_finite v = true -> (or_else v zero === v)%js.
Proof.
  destruct v as [q| | |]; try discriminate. intros _.
  unfold or_else, truthy, Qis_zero.
  destruct (Qeq_bool q 0) eqn:E; cbn [negb]; [|reflexivity].
  apply Qeq_bool_iff in E. simpl. now rewrite E.
Qed.

(** The value the page reads before adding an amount to a category. *)
Lemma current_valueAt (obj : JsObject.t number) (k : string) :
  finite_values obj ->
  (match JsObject.get obj k with
   | Some v => or_else v zero
   | None => zero
   end === valueAt obj k)%js
  /\ is_finite (valueAt obj k) = true.
Proof.
  intros Hf. unfold valueAt.
  destruct (JsObject.get obj k) as [v|] eqn:E; [|split; reflexivity].
  destruct (get_In _ _ _ E) as [k' Hk'].
  assert (Hv : is_finite v = true).
  { unfold finite_values in Hf. rewrite Forall_forall in Hf.
    exact (Hf _ Hk'). }
  split; [now apply or_else_finite|exact Hv].
Qed.

Lemma or_else_is_finite (v : number) :
  is_finite v = true -> is_finite (or_else v zero) = true.
Proof.
  unfold or_else. now destruct (truthy v).
Qed.

Lemma addToCategory_finite (obj : JsObject.t number) (t : Transaction.t) :
  finite_values obj -> is_finite (Transaction.amount t) = true ->
  finite_values (VisualAnalysis.addToCategory obj t).
Proof.
  intros Hf Ha. unfold finite_values. apply Forall_forall. intros e He.
  unfold VisualAnalysis.addToCategory in He. apply In_set in He.
  destruct He as [->|He].
  - cbn [snd]. apply add_finite; [|exact Ha].
    destruct (JsObject.get obj (Transaction.category t)) as [v|] eqn:E;
      [|reflexivity].
    destruct (get_In _ _ _ E) as [k' Hk']. apply or_else_is_finite.
    unfold finite_values in Hf. rewrite Forall_forall in Hf. exact (Hf _ Hk').
  - unfold finite_values in Hf. rewrite Forall_forall in Hf. now apply Hf.
Qed.

Lemma valueAt_addToCategory (obj : JsObject.t number) (t : Transaction.t)
      (k : string) :
  finite_values obj ->
  (valueAt (VisualAnalysis.addToCategory obj t) k
   === if String.eqb (Transaction.category t) k
       then valueAt obj k + Transaction.amount t
       else valueAt obj k)%js.
Proof.
  intros Hf. unfold VisualAnalysis.addToCategory, Number.
  unfold valueAt at 1. rewrite get_set.
  destruct (String.eqb (Transaction.category t) k) eqn:E.
  - apply String.eqb_eq in E. subst k.
    destruct (current_valueAt obj (Transaction.category t) Hf) as [H _].
    now rewrite H.
  - reflexivity.
Qed.

Lemma categoriesOf_values (l : list Transaction.t) :
  forall obj : JsObject.t number,
    finite_values obj -> finiteAmounts l ->
    finite_values (fold_left VisualAnalysis.addToCategory l obj)
    /\ (forall k : string,
          (valueAt (fold_left VisualAnalysis.addToCategory l obj) k
           === valueAt obj k
               + Spec.sum_of Transaction.amount (ofCategory k l))%js).
Proof.
  induction l as [|t l IH]; intros obj Hf Hl; cbn [fold_left].
  - split; [exact Hf|]. intros k. cbn. symmetry. apply add_zero_r.
  - inversion Hl as [|? ? Ht Hl']; subst.
    destruct (IH _ (addToCategory_finite _ _ Hf Ht) Hl') as [H1 H2].
    split; [exact H1|]. intros k. rewrite H2, (valueAt_addToCategory _ _ _ Hf).
    unfold ofCategory. cbn [filter].
    destruct (String.eqb (Transaction.category t) k); cbn [Spec.sum_of].
    + apply add_assoc.
    + reflexivity.
Qed.

Lemma finiteAmounts_ofType (ty : TxType) (l : list Transaction.t) :
  finiteAmounts l -> finiteAmounts (VisualAnalysis.transactionsOfType ty l).
Proof. apply Forall_filter. Qed.

(** The rows of the breakdown, read as properties of the category
    object. *)
Lemma row_of_breakdown (ty : TxType) (transactions : list Transaction.t)
      (row : CategoryData.t) :
  In row (VisualAnalysis.categoryBreakdown ty transactions) ->
  In (CategoryData.category row, CategoryData.amount row)
     (VisualAnalysis.categoriesOf
        (VisualAnalysis.transactionsOfType ty transactions)).
Proof.
  intros H.
  apply (Permutation_in _ (categoryBreakdown_perm ty transactions)) in H.
  apply in_map_iff in H. destruct H as [[k v] [<- H]]. exact H.
Qed.


(** X24.  The amount of a row of the category breakdown is the sum of the
    amounts of the transactions of the requested type filed under the
    category of the row (finite amounts, no inherited category name). *)
Theorem categoryBreakdown_amount_is_category_sum
        (ty : TxType) (transactions : list Transaction.t)
        (row : CategoryData.t) :
  finiteAmounts transactions ->
  plainCategories transactions ->
  In row (VisualAnalysis.categoryBreakdown ty transactions) ->
  (CategoryData.amount row
   === Spec.sum_of Transaction.amount
         (ofCategory (CategoryData.category row)
                     (VisualAnalysis.transactionsOfType ty transactions)))%js.
Proof.
  intros Hf _ H. apply row_of_breakdown in H.
  destruct (categoriesOf_keys
              (VisualAnalysis.transactionsOfType ty transactions)
              JsObject.empty (NoDup_nil _)) as [Hnd _].
  destruct (categoriesOf_values
              (VisualAnalysis.transactionsOfType ty transactions)
              JsObject.empty (Forall_nil _)
              (finiteAmounts_ofType ty _ Hf)) as [_ Hv].
  specialize (Hv (CategoryData.category row)).
  unfold valueAt at 1 in Hv.
  unfold VisualAnalysis.categoriesOf in H.
  rewrite (get_of_In _ _ _ Hnd H) in Hv. rewrite Hv.
  cbn [valueAt JsObject.get JsObject.empty]. apply add_zero_l.
Qed.

Lemma sample_rent_row_In :
  In sample_rent_row
     (VisualAnalysis.categoryBreakdown Expense sample_transactions).
Proof. vm_compute. left. reflexivity. Qed.

Lemma categoryBreakdown_amount_is_category_sum_witness :
  (CategoryData.amount sample_rent_row
   === Spec.sum_of Transaction.amount
         (ofCategory (CategoryData.category sample_rent_row)
            (VisualAnalysis.transactionsOfType Expense sample_transactions)))%js.
Proof.
  exact (categoryBreakdown_amount_is_category_sum
           Expense sample_transactions sample_rent_row
           sample_finiteAmounts sample_plainCategories sample_rent_row_In).
Defined.

(* ------------------------------------------------------------------ *)
(** ** Category breakdown: order and shares *)
(* ------------------------------------------------------------------ *)















(* ------------------------------------------------------------------ *)
(** ** Monthly series: conservation of the totals *)
(* ------------------------------------------------------------------ *)


Lemma NoDup_first_occurrences (l : list string) :
  NoDup (Spec.first_occurrences String.eqb l).
Proof.
  induction l as [|k l IH]; cbn [Spec.first_occurrences]; constructor.
  - intros H. apply filter_In in H. destruct H as [_ H].
    now rewrite String.eqb_refl in H.
  - now apply NoDup_filter.
Qed.

Lemma first_occurrences_complete (x : string) (l : list string) :
  In x l -> In x (Spec.first_occurrences String.eqb l).
Proof.
  induction l as [|k l IH]; cbn [Spec.first_occurrences In]; [tauto|].
  intros [->|H]; [now left|].
  destruct (String.eqb x k) eqn:E.
  - apply String.eqb_eq in E. now left.
  - right. apply filter_In. split; [now apply IH|now rewrite E].
Qed.





(** X28.  In every time zone the monthly series has exactly one row per
    month label: the labels of its rows are pairwise different, and they
    are the labels of the dates of the transactions. *)
Theorem monthlySeries_one_row_per_label (tz : Z) (ts : list Transaction.t) :
  NoDup (map MonthRow.month (VisualAnalysis.monthlySeries tz ts))
  /\ (forall label : string,
        In label (map MonthRow.month (VisualAnalysis.monthlySeries tz ts))
        <-> exists t : Transaction.t,
              In t ts /\ toLocaleMonthYear tz (Transaction.date t) = label).
Proof.
  rewrite monthlySeries_by_key, map_map. cbn [MonthRow.month]. rewrite map_id.
  split; [apply NoDup_first_occurrences|].
  intros label. split.
  - intros H. apply In_first_occurrences, in_map_iff in H.
    destruct H as [t [Hk Ht]]. now exists t.
  - intros [t [Ht Hk]]. apply first_occurrences_complete.
    apply in_map_iff. now exists t.
Qed.

(* ------------------------------------------------------------------ *)
(** ** Monthly series: the bars of a month *)
(* ------------------------------------------------------------------ *)







(* ------------------------------------------------------------------ *)
(** ** Export: reading back what was written *)
(* ------------------------------------------------------------------ *)

Import CsvReader.









Section ReadBack.

Variable Number_toString : number -> string.









End ReadBack.

